(** * rsr/pdf.py: probability density evaluators compliant with lmfit

    A shallow embedding of [pdf.py].  The five evaluators ([gamma],
    [rayleigh], [rice], [k], [hk]) are transcribed statement by
    statement into an exception monad over a small universe of Python
    values.  Floating-point numbers are IEEE binary64 values in the
    executable specification of the Standard Library ([SpecFloat]), so
    that NaN, the infinities and the signed zeros are those of the
    machine.  The numerical libraries the module imports (scipy.stats,
    scipy.special, scipy.integrate, math, and the power functions of
    Python and numpy) are an interface, [Providers], over which every
    statement is quantified. *)

From Stdlib Require Import ZArith String SpecFloat FunctionalExtensionality.
From stdpp Require Import base option list strings gmap.

Local Open Scope string_scope.

(** ** IEEE binary64 *)

Abbreviation float := spec_float.

Module F64.
Definition prec : Z := 53.
Definition emax : Z := 1024.

Definition add : float -> float -> float := SFadd prec emax.
Definition sub : float -> float -> float := SFsub prec emax.
Definition mul : float -> float -> float := SFmul prec emax.
Definition div : float -> float -> float := SFdiv prec emax.
Definition sqrt : float -> float := SFsqrt prec emax.
Definition opp : float -> float := SFopp.

Definition nan : float := S754_nan.
Definition inf : float := S754_infinity false.
Definition zero : float := S754_zero false.
(** [ldexp m e] is the double nearest to [m * 2^e]. *)
Definition ldexp (m e : Z) : float := binary_normalize prec emax m e false.
Definition one : float := ldexp 1 0.
Definition two : float := ldexp 2 0.
(** The largest finite double, [sys.float_info.max]. *)
Definition max_float : float := SFmax_float prec emax.

Definition is_nan (x : float) : bool :=
  match x with S754_nan => true | _ => false end.
Definition is_inf (x : float) : bool :=
  match x with S754_infinity _ => true | _ => false end.
Definition is_finite (x : float) : bool :=
  match x with S754_zero _ | S754_finite _ _ _ => true | _ => false end.
Definition is_zero (x : float) : bool :=
  match x with S754_zero _ => true | _ => false end.
(** [0 <= x], false on NaN. *)
Definition nonneg (x : float) : bool := SFleb zero x.
(** [0 < x], false on NaN. *)
Definition pos (x : float) : bool := SFltb zero x.
End F64.

(** ** Python values and exceptions *)

Inductive exn :=
  | KeyError (key : string)
  | AttributeError
  | TypeError
  | ValueError
  | ZeroDivisionError
  | OverflowError
  | QuadpackError.

Inductive result (A : Type) :=
  | Ok (a : A)
  | Raise (e : exn).
Arguments Ok {A} a.
Arguments Raise {A} e.

#[global] Instance result_ret : MRet result := fun _ a => Ok a.
#[global] Instance result_bind : MBind result := fun _ _ f m =>
  match m with Ok a => f a | Raise e => Raise e end.
#[global] Instance result_fmap : FMap result := fun _ _ f m =>
  match m with Ok a => Ok (f a) | Raise e => Raise e end.

Definition returns {A} (m : result A) : Prop := exists a, m = Ok a.
Definition raises {A} (m : result A) : Prop := exists e, m = Raise e.

(** The values that reach the evaluators: [None], a Python [float], a
    [numpy.float64] scalar, a one-dimensional float64 array, and the
    boxed numeric of the fitting framework, an object whose only
    capability is a [.value] attribute holding a float. *)
Inductive pyval :=
  | PyNone
  | PyFloat (v : float)
  | NpFloat (v : float)
  | NdArray (l : list float)
  | Boxed (v : float).

(** [hasattr(v, 'value')] and [v.value]. *)
Definition hasattr_value (v : pyval) : bool :=
  match v with Boxed _ => true | _ => false end.
Definition attr_value (v : pyval) : result pyval :=
  match v with Boxed x => Ok (PyFloat x) | _ => Raise AttributeError end.

(** [params[key]] on a dict. *)
Definition getitem (params : gmap string pyval) (key : string) : result pyval :=
  match params !! key with
  | Some v => Ok v
  | None => Raise (KeyError key)
  end.

(** ** numpy element-wise functions with broadcasting

    An operand is a scalar (no length) or an array (its length); an
    array of length 1 is stretched.  Objects that are not numbers make
    the ufunc raise [TypeError]. *)

Definition np_operand (v : pyval) : result (option nat * (nat -> float)) :=
  match v with
  | PyFloat x | NpFloat x => Ok (None, fun _ => x)
  | NdArray l =>
      Ok (Some (length l),
          fun i => nth (if Nat.eqb (length l) 1 then 0 else i) l F64.nan)
  | PyNone | Boxed _ => Raise TypeError
  end.

Definition np_broadcast (s1 s2 : option nat) : result (option nat) :=
  match s1, s2 with
  | None, s | s, None => Ok s
  | Some n, Some m =>
      if Nat.eqb n m then Ok (Some n)
      else if Nat.eqb n 1 then Ok (Some m)
      else if Nat.eqb m 1 then Ok (Some n)
      else Raise ValueError
  end.

Definition np_build (s : option nat) (f : nat -> float) : pyval :=
  match s with
  | None => NpFloat (f 0)
  | Some n => NdArray (map f (seq 0 n))
  end.

Definition np_ufunc1 (f : float -> float) (u : pyval) : result pyval :=
  '(s, g) ← np_operand u;
  Ok (np_build s (fun i => f (g i))).

Definition np_ufunc2 (f : float -> float -> float) (u v : pyval) : result pyval :=
  '(su, gu) ← np_operand u;
  '(sv, gv) ← np_operand v;
  s ← np_broadcast su sv;
  Ok (np_build s (fun i => f (gu i) (gv i))).

Definition np_ufunc3 (f : float -> float -> float -> float) (u v w : pyval)
  : result pyval :=
  '(su, gu) ← np_operand u;
  '(sv, gv) ← np_operand v;
  '(sw, gw) ← np_operand w;
  s ← np_broadcast su sv;
  s ← np_broadcast s sw;
  Ok (np_build s (fun i => f (gu i) (gv i) (gw i))).

(** [np.nan_to_num] on one element: NaN becomes 0, the infinities
    become the finite doubles of largest magnitude. *)
Definition nan_to_num (x : float) : float :=
  match x with
  | S754_nan => F64.zero
  | S754_infinity false => F64.max_float
  | S754_infinity true => F64.opp F64.max_float
  | _ => x
  end.

Definition np_nan_to_num : pyval -> result pyval := np_ufunc1 nan_to_num.
Definition np_sqrt : pyval -> result pyval := np_ufunc1 F64.sqrt.

(** ** The providers *)

Class Providers := {
  (** [scipy.stats.gamma.pdf(x, a, scale=scale)] at one point *)
  stats_gamma_pdf : float -> float -> float -> float;
  (** [scipy.stats.rayleigh.pdf(x, scale=scale)] at one point *)
  stats_rayleigh_pdf : float -> float -> float;
  (** [scipy.stats.rice.pdf(x, b, scale=scale)] at one point *)
  stats_rice_pdf : float -> float -> float -> float;
  (** [scipy.special.jv(v, z)] and [scipy.special.kv(v, z)] *)
  special_jv : float -> float -> float;
  special_kv : float -> float -> float;
  (** [math.gamma(x)], which raises on poles and on overflow *)
  math_gamma : float -> result float;
  (** [x ** y] on Python floats, which raises on overflow and on a zero
      base with a negative exponent *)
  float_pow : float -> float -> result float;
  (** [x ** y] on numpy operands, which never raises *)
  np_power : float -> float -> float;
  (** [scipy.integrate.quad(f, a, b)]: the estimate and the error estimate *)
  integrate_quad : (float -> result pyval) -> float -> float -> result (float * float)
}.

(** The integrator calls the integrand and needs a float back from it:
    over an integrand that never yields one, no estimate is produced. *)
Definition is_number (v : pyval) : bool :=
  match v with PyFloat _ | NpFloat _ => true | _ => false end.
Definition yields_number (m : result pyval) : Prop :=
  exists v, m = Ok v /\ is_number v = true.
Definition quad_needs_numbers `{P : Providers} : Prop :=
  forall f a b, (forall w, ~ yields_number (f w)) -> raises (integrate_quad f a b).

Section Evaluators.
Context `{P : Providers}.

(** *** Python arithmetic *)

(** Two Python floats follow Python; anything else goes through numpy. *)
Definition py_binop (pyop : float -> float -> result float)
    (npop : float -> float -> float) (u v : pyval) : result pyval :=
  match u, v with
  | PyFloat a, PyFloat b => PyFloat <$> pyop a b
  | _, _ => np_ufunc2 npop u v
  end.

Definition py_add := py_binop (fun a b => Ok (F64.add a b)) F64.add.
Definition py_sub := py_binop (fun a b => Ok (F64.sub a b)) F64.sub.
Definition py_mul := py_binop (fun a b => Ok (F64.mul a b)) F64.mul.
Definition py_truediv :=
  py_binop (fun a b => if F64.is_zero b then Raise ZeroDivisionError
                       else Ok (F64.div a b)) F64.div.
Definition py_pow := py_binop float_pow np_power.
Definition py_neg (u : pyval) : result pyval :=
  match u with
  | PyFloat a => Ok (PyFloat (F64.opp a))
  | _ => np_ufunc1 F64.opp u
  end.

(** [math.gamma(v)]: the argument must convert to a C double. *)
Definition py_math_gamma (v : pyval) : result pyval :=
  match v with
  | PyFloat x | NpFloat x | NdArray [x] => PyFloat <$> math_gamma x
  | _ => Raise TypeError
  end.

(** *** Output selection, the closing lines of every evaluator *)

Definition output (model data eps : pyval) : result pyval :=
  match data with
  | PyNone => Ok model
  | _ =>
      match eps with
      | PyNone => py_sub model data
      | _ => r ← py_sub model data; py_truediv r eps
      end
  end.

(** [if hasattr(v, 'value'): v = v.value] *)
Definition unwrap (v : pyval) : result pyval :=
  if hasattr_value v then attr_value v else Ok v.

(** *** gamma, rayleigh, rice, k *)

Definition gamma_model (params : gmap string pyval) (x : pyval) : result pyval :=
  mu ← getitem params "mu";
  mu ← unwrap mu;
  np_ufunc3 stats_gamma_pdf x mu (PyFloat F64.one).

Definition gamma (params : gmap string pyval) (x data eps : pyval) : result pyval :=
  model ← gamma_model params x;
  model ← np_nan_to_num model;
  output model data eps.

Definition rayleigh_model (params : gmap string pyval) (x : pyval) : result pyval :=
  s ← getitem params "s";
  np_ufunc2 stats_rayleigh_pdf x s.

Definition rayleigh (params : gmap string pyval) (x data eps : pyval) : result pyval :=
  model ← rayleigh_model params x;
  model ← np_nan_to_num model;
  output model data eps.

Definition rice_model (params : gmap string pyval) (x : pyval) : result pyval :=
  a ← getitem params "a";
  s ← getitem params "s";
  b ← py_truediv a s;
  np_ufunc3 stats_rice_pdf x b s.

Definition rice (params : gmap string pyval) (x data eps : pyval) : result pyval :=
  model ← rice_model params x;
  model ← np_nan_to_num model;
  output model data eps.

Definition k_model (params : gmap string pyval) (x : pyval) : result pyval :=
  s ← getitem params "s";
  mu ← getitem params "mu";
  t ← py_mul (PyFloat F64.two) mu;
  t ← np_sqrt t;
  b ← py_truediv t s;
  h ← py_truediv x (PyFloat F64.two);
  p ← py_pow h mu;
  m ← py_mul (PyFloat F64.two) p;
  mu1 ← py_add mu (PyFloat F64.one);
  q ← py_pow b mu1;
  m ← py_mul m q;
  g ← py_math_gamma mu;
  m ← py_truediv m g;
  nu ← py_sub mu (PyFloat F64.one);
  bx ← py_mul b x;
  kk ← np_ufunc2 special_kv nu bx;
  py_mul m kk.

Definition k (params : gmap string pyval) (x data eps : pyval) : result pyval :=
  model ← k_model params x;
  model ← np_nan_to_num model;
  output model data eps.

(** *** hk *)

(** The nested function of [hk]; a method that is neither string falls
    off the end of the function and returns [None]. *)
Definition integrand (w x a s mu : pyval) (method : string) : result pyval :=
  if String.eqb method "analytic" then
    xw ← py_mul x w;
    wa ← py_mul w a;
    j ← np_ufunc2 special_jv (PyFloat F64.zero) wa;
    m ← py_mul xw j;
    wx ← py_mul w x;
    j ← np_ufunc2 special_jv (PyFloat F64.zero) wx;
    m ← py_mul m j;
    w2 ← py_pow w (PyFloat F64.two);
    s2 ← py_pow s (PyFloat F64.two);
    t ← py_mul w2 s2;
    d ← py_mul (PyFloat F64.two) mu;
    t ← py_truediv t d;
    t ← py_add (PyFloat F64.one) t;
    e ← py_neg mu;
    p ← py_pow t e;
    py_mul m p
  else if String.eqb method "compound" then
    r ← py_truediv w mu;
    r ← np_sqrt r;
    s' ← py_mul s r;
    f ← rice {[ "a" := a; "s" := s' ]} x PyNone PyNone;
    g ← gamma {[ "mu" := mu ]} w PyNone PyNone;
    py_mul f g
  else Ok PyNone.

(** [np.array([x]).flatten(0)], as the elements met when iterating. *)
Definition flatten (x : pyval) : list pyval :=
  match x with
  | NdArray l => map NpFloat l
  | PyFloat v | NpFloat v => [NpFloat v]
  | _ => [x]
  end.

(** What [verbose=True] prints. *)
Definition hk_stdout (params : gmap string pyval) (verbose : bool)
  : result (list (pyval * pyval * pyval)) :=
  a ← getitem params "a";
  s ← getitem params "s";
  mu ← getitem params "mu";
  a ← unwrap a;
  s ← unwrap s;
  mu ← unwrap mu;
  Ok (if verbose then [(a, s, mu)] else []).

Definition hk_model (params : gmap string pyval) (x : pyval) (method : string)
  : result pyval :=
  a ← getitem params "a";
  s ← getitem params "s";
  mu ← getitem params "mu";
  a ← unwrap a;
  s ← unwrap s;
  mu ← unwrap mu;
  model ← mapM (fun i =>
             r ← integrate_quad (fun w => integrand (PyFloat w) i a s mu method)
                                F64.zero F64.inf;
             Ok (fst r))
           (flatten x);
  Ok (NdArray model).

Definition hk (params : gmap string pyval) (x data eps : pyval) (method : string)
  : result pyval :=
  model ← hk_model params x method;
  output model data eps.

End Evaluators.

(** ** The evaluators as one family *)

Inductive evaluator :=
  | Gamma
  | Rayleigh
  | Rice
  | K
  | HK (method : string).

Definition evaluate `{P : Providers} (ev : evaluator)
    (params : gmap string pyval) (x data eps : pyval) : result pyval :=
  match ev with
  | Gamma => gamma params x data eps
  | Rayleigh => rayleigh params x data eps
  | Rice => rice params x data eps
  | K => k params x data eps
  | HK method => hk params x data eps method
  end.

(** The value of the density formula, before any post-processing. *)
Definition formula `{P : Providers} (ev : evaluator)
    (params : gmap string pyval) (x : pyval) : result pyval :=
  match ev with
  | Gamma => gamma_model params x
  | Rayleigh => rayleigh_model params x
  | Rice => rice_model params x
  | K => k_model params x
  | HK method => hk_model params x method
  end.

(** A parameter as the evaluators of [gamma] and [hk] read it. *)
Definition param (params : gmap string pyval) (key : string) : result pyval :=
  v ← getitem params key; unwrap v.

(** ** Values, and the policies the statements compare *)

(** The float of a scalar operand, whichever scalar type it has. *)
Definition scalar_of (v : pyval) : option float :=
  match v with PyFloat a | NpFloat a => Some a | _ => None end.

(** The evaluators that post-process their formula with [np.nan_to_num]. *)
Definition simple (ev : evaluator) : bool :=
  match ev with HK _ => false | _ => true end.

(** The elements of a numeric value. *)
Definition values (v : pyval) : list float :=
  match v with
  | PyFloat a | NpFloat a => [a]
  | NdArray l => l
  | _ => []
  end.

Definition numeric (v : pyval) : bool :=
  match v with PyFloat _ | NpFloat _ | NdArray _ => true | _ => false end.

(** What the NaN policy would be if infinities were zeroed too. *)
Definition zero_nonfinite (v : float) : float :=
  if F64.is_finite v then v else F64.zero.

(** ** The formulas as the specification words them *)

Section Specification.
Context `{P : Providers}.

(** [2 * (x/2)^mu * b^(mu+1) / Γ(mu) * K_{mu-1}(b*x)] with
    [b = sqrt(2*mu)/s], in double arithmetic; [g] is [Γ(mu)] and [p]
    is the power [(x/2)^mu]. *)
Definition k_b (s mu : float) : float :=
  F64.div (F64.sqrt (F64.mul F64.two mu)) s.

Definition k_closed_form (s mu g p x : float) : float :=
  F64.mul
    (F64.div
       (F64.mul (F64.mul F64.two p) (np_power (k_b s mu) (F64.add mu F64.one)))
       g)
    (special_kv (F64.sub mu F64.one) (F64.mul (k_b s mu) x)).

Definition k_density (s mu g x : float) : float :=
  k_closed_form s mu g (np_power (F64.div x F64.two) mu) x.

(** The integrand of [hk] on float arguments. *)

(** [x_i * w * J_0(w*a) * J_0(w*x_i) * (1 + w²s²/(2μ))^(-μ)] *)
Definition analytic_integrand (x a s mu w : float) : result pyval :=
  w2 ← float_pow w F64.two;
  s2 ← float_pow s F64.two;
  if F64.is_zero (F64.mul F64.two mu) then Raise ZeroDivisionError
  else
    p ← float_pow
          (F64.add F64.one (F64.div (F64.mul w2 s2) (F64.mul F64.two mu)))
          (F64.opp mu);
    Ok (NpFloat
          (F64.mul
             (F64.mul
                (F64.mul (F64.mul x w) (special_jv F64.zero (F64.mul w a)))
                (special_jv F64.zero (F64.mul w x)))
             p)).

(** [Rice({a: a, s: s*sqrt(w/μ)}, x_i) * Gamma({mu: μ}, w)], both calls
    without [data] and [eps]. *)
Definition compound_integrand (x a s mu w : float) : result pyval :=
  if F64.is_zero mu then Raise ZeroDivisionError
  else
    f ← rice {[ "a" := PyFloat a;
                "s" := NpFloat (F64.mul s (F64.sqrt (F64.div w mu))) ]}
           (NpFloat x) PyNone PyNone;
    g ← gamma {[ "mu" := PyFloat mu ]} (PyFloat w) PyNone PyNone;
    py_mul f g.

Definition integrand_spec (method : string) (x a s mu w : float) : result pyval :=
  if String.eqb method "analytic" then analytic_integrand x a s mu w
  else if String.eqb method "compound" then compound_integrand x a s mu w
  else Ok PyNone.

(** The point estimate of one quadrature: element [0] of the pair. *)
Definition estimate (f : float -> result pyval) : result float :=
  r ← integrate_quad f F64.zero F64.inf; Ok (fst r).

End Specification.

(** ** A concrete provider

    The numerical libraries are outside the module. [Sample.provider] is
    a small executable stand-in for them: it reproduces the argument
    checks of scipy's [pdf] wrapper and tabulates the libraries at the
    points the examples below evaluate (NaN marks a point that is not
    tabulated).  It serves to run the evaluators on explicit inputs and
    to show that the assumptions made on providers can be met. *)

Module Sample.

(** [rv_continuous.pdf]: NaN when the shape or the scale is invalid or
    [x] is NaN, 0 outside the support [0, inf], else [_pdf(x/scale)/scale]. *)
Definition pdf_frame (valid : bool) (body : float -> float) (x scale : float)
  : float :=
  if negb (valid && F64.pos scale) || F64.is_nan x then F64.nan
  else if F64.nonneg (F64.div x scale) then F64.div (body (F64.div x scale)) scale
  else F64.zero.

(** Gamma density at the origin: infinite for a shape below 1, 1 for
    shape 1, 0 above. *)
Definition gamma_pdf (x a scale : float) : float :=
  pdf_frame (F64.pos a)
    (fun r => if F64.is_zero r then
                match SFcompare a F64.one with
                | Some Lt => F64.inf
                | Some Eq => F64.one
                | _ => F64.zero
                end
              else F64.nan)
    x scale.

(** Rayleigh and Rice densities vanish at the origin. *)
Definition rayleigh_pdf (x scale : float) : float :=
  pdf_frame true (fun r => if F64.is_zero r then F64.zero else F64.nan) x scale.

Definition rice_pdf (x b scale : float) : float :=
  pdf_frame (F64.nonneg b)
    (fun r => if F64.is_zero r && F64.is_finite b then F64.zero else F64.nan)
    x scale.

(** [J_0(0) = 1]. *)
Definition jv (v z : float) : float :=
  if F64.is_zero v && F64.is_zero z then F64.one else F64.nan.

(** The argument [sqrt(2) * 2^-200], and [K_0] there (138.4 to four
    digits; 138.5 is the nearby double used). *)
Definition kv_point : float :=
  F64.mul (F64.div (F64.sqrt F64.two) (F64.ldexp 1 (-600))) (F64.ldexp 1 (-800)).
Definition kv (v z : float) : float :=
  if F64.is_zero z then F64.inf
  else if F64.is_zero v && SFeqb z kv_point then F64.ldexp 277 (-1)
  else F64.nan.

(** [math.gamma]: [Γ(1) = Γ(2) = 1], a pole at 0, overflow from 172 on. *)
Definition gamma_fn (x : float) : result float :=
  if F64.is_zero x then Raise ValueError
  else if SFleb (F64.ldexp 172 0) x && F64.is_finite x then Raise OverflowError
  else if SFeqb x F64.one || SFeqb x F64.two then Ok F64.one
  else Ok F64.nan.

(** Powers with exponent 1, 2 and -2. *)
Definition np_pow (x y : float) : float :=
  if SFeqb y F64.one then x
  else if SFeqb y F64.two then F64.mul x x
  else if SFeqb y (F64.opp F64.two) then F64.div F64.one (F64.mul x x)
  else F64.nan.

Definition py_pow (x y : float) : result float :=
  let r := np_pow x y in
  if F64.is_zero x && SFltb y F64.zero then Raise ZeroDivisionError
  else if F64.is_inf r && F64.is_finite x then Raise OverflowError
  else Ok r.

(** One node, the centre [w = 1] of QUADPACK's first panel on
    [0, inf); the exception of the integrand propagates, and a value
    that is not a float is an error of the integrator. *)
Definition quad (f : float -> result pyval) (a b : float) : result (float * float) :=
  v ← f F64.one;
  match v with
  | PyFloat y | NpFloat y => Ok (F64.mul (F64.ldexp 4 0) y, F64.zero)
  | _ => Raise QuadpackError
  end.

Definition provider : Providers := {|
  stats_gamma_pdf := gamma_pdf;
  stats_rayleigh_pdf := rayleigh_pdf;
  stats_rice_pdf := rice_pdf;
  special_jv := jv;
  special_kv := kv;
  math_gamma := gamma_fn;
  float_pow := py_pow;
  np_power := np_pow;
  integrate_quad := quad
|}.

Definition half : float := F64.ldexp 1 (-1).

End Sample.

(** The parameters and the point of the examples of [k]:
    [s = 2^-600], [mu = 1], [x = 2^-800]. *)
Definition k_tiny_scale : gmap string pyval :=
  {[ "s" := PyFloat (F64.ldexp 1 (-600)); "mu" := PyFloat F64.one ]}.

(** The parameters of the examples of [hk]: [a = 0] given boxed,
    [s = 1], [mu = 2]. *)
Definition hk_sample_params : gmap string pyval :=
  {[ "a" := Boxed F64.zero; "s" := PyFloat F64.one; "mu" := PyFloat F64.two ]}.

(** ** Reading order of the parameters, signs, and provider assumptions *)

(** The keys an evaluator reads from [params], in the order of its
    [params[...]] lines. *)
Definition keys_read (ev : evaluator) : list string :=
  match ev with
  | Gamma => ["mu"]
  | Rayleigh => ["s"]
  | Rice => ["a"; "s"]
  | K => ["s"; "mu"]
  | HK _ => ["a"; "s"; "mu"]
  end.

(** NaN, or a value whose sign bit is clear: [+0], a positive number or
    [+inf]. *)
Definition sign_plus (v : float) : bool :=
  match v with
  | S754_nan => true
  | S754_zero s | S754_infinity s | S754_finite s _ _ => negb s
  end.

(** NaN, a zero of either sign, a positive number or [+inf]. *)
Definition not_negative (v : float) : bool :=
  match v with
  | S754_zero _ => true
  | _ => sign_plus v
  end.

(** The three densities of scipy.stats never return a negative number. *)
Definition pdfs_not_negative `{P : Providers} : Prop :=
  (forall x a scale, not_negative (stats_gamma_pdf x a scale) = true)
  /\ (forall x scale, not_negative (stats_rayleigh_pdf x scale) = true)
  /\ (forall x b scale, not_negative (stats_rice_pdf x b scale) = true).

(** A power of a base that is not negative, and [K_v] at an argument
    that is not negative, are not negative. *)
Definition power_kv_not_negative `{P : Providers} : Prop :=
  (forall b e, sign_plus b = true -> sign_plus (np_power b e) = true)
  /\ (forall v z, sign_plus z = true -> sign_plus (special_kv v z) = true).

(** * Properties *)

(** ** Element-wise functions on arrays and scalars *)

Section Ufuncs.

Lemma operand_nth (l : list float) i :
  i < length l ->
  nth (if Nat.eqb (length l) 1 then 0 else i) l F64.nan = nth i l F64.nan.
Proof.
  intros Hi. destruct (Nat.eqb_spec (length l) 1) as [E|]; [|done].
  replace i with 0 by lia. done.
Qed.

Lemma map_seq_nth {B} (g : float -> B) (l : list float) :
  map (fun i => g (nth i l F64.nan)) (seq 0 (length l)) = map g l.
Proof.
  induction l as [|a l IH]; [done|].
  cbn [length seq map nth]. f_equal.
  rewrite <- seq_shift, map_map. exact IH.
Qed.

Lemma map_seq_operand {B} (g : float -> B) (l : list float) :
  map (fun i => g (nth (if Nat.eqb (length l) 1 then 0 else i) l F64.nan))
      (seq 0 (length l)) = map g l.
Proof.
  rewrite <- (map_seq_nth g l). apply map_ext_in.
  intros i Hi. apply in_seq in Hi. rewrite operand_nth; [done|lia].
Qed.

Lemma map_seq_zip {B} (g : float -> float -> B) (l1 l2 : list float) :
  length l1 = length l2 ->
  map (fun i => g (nth i l1 F64.nan) (nth i l2 F64.nan)) (seq 0 (length l1))
  = zip_with g l1 l2.
Proof.
  revert l2. induction l1 as [|a l1 IH]; intros [|b l2] Hl; try done.
  cbn [length seq map nth zip_with]. f_equal.
  rewrite <- seq_shift, map_map. apply IH. simpl in Hl. lia.
Qed.

Lemma np_ufunc1_array f l : np_ufunc1 f (NdArray l) = Ok (NdArray (map f l)).
Proof. cbv [np_ufunc1 np_operand mbind result_bind np_build]. by rewrite map_seq_operand. Qed.

Lemma np_ufunc1_np f v : np_ufunc1 f (NpFloat v) = Ok (NpFloat (f v)).
Proof. done. Qed.

Lemma np_ufunc1_py f v : np_ufunc1 f (PyFloat v) = Ok (NpFloat (f v)).
Proof. done. Qed.

Lemma np_ufunc2_arrays f l1 l2 :
  length l1 = length l2 ->
  np_ufunc2 f (NdArray l1) (NdArray l2) = Ok (NdArray (zip_with f l1 l2)).
Proof.
  intros Hl.
  cbv [np_ufunc2 np_operand mbind result_bind np_broadcast np_build].
  rewrite <- Hl, Nat.eqb_refl. do 2 f_equal.
  rewrite <- (map_seq_zip f l1 l2 Hl). apply map_ext_in.
  intros i Hi. apply in_seq in Hi.
  rewrite (operand_nth l1) by lia.
  rewrite Hl, (operand_nth l2) by lia. done.
Qed.

Lemma np_ufunc2_array_scalar f l v a :
  scalar_of v = Some a ->
  np_ufunc2 f (NdArray l) v = Ok (NdArray (map (fun x => f x a) l)).
Proof.
  intros Hv.
  assert (np_operand v = Ok (None, fun _ => a)) as E
    by (destruct v; simplify_eq/=; done).
  cbv [np_ufunc2 mbind result_bind]. rewrite E.
  cbv [np_operand np_broadcast np_build].
  by rewrite (map_seq_operand (fun x => f x a)).
Qed.

Lemma np_ufunc2_scalar_array f l v a :
  scalar_of v = Some a ->
  np_ufunc2 f v (NdArray l) = Ok (NdArray (map (f a) l)).
Proof.
  intros Hv.
  assert (np_operand v = Ok (None, fun _ => a)) as E
    by (destruct v; simplify_eq/=; done).
  cbv [np_ufunc2 mbind result_bind]. rewrite E.
  cbv [np_operand np_broadcast np_build].
  by rewrite (map_seq_operand (f a)).
Qed.

Lemma np_ufunc2_scalars f u v a b :
  scalar_of u = Some a -> scalar_of v = Some b ->
  np_ufunc2 f u v = Ok (NpFloat (f a b)).
Proof. destruct u, v; intros; simplify_eq/=; reflexivity. Qed.

Lemma np_ufunc3_array_scalars f l u v a b :
  scalar_of u = Some a -> scalar_of v = Some b ->
  np_ufunc3 f (NdArray l) u v = Ok (NdArray (map (fun x => f x a b) l)).
Proof.
  intros Hu Hv.
  assert (np_operand u = Ok (None, fun _ => a)) as Eu
    by (destruct u; simplify_eq/=; done).
  assert (np_operand v = Ok (None, fun _ => b)) as Ev
    by (destruct v; simplify_eq/=; done).
  cbv [np_ufunc3 mbind result_bind]. rewrite Eu, Ev.
  cbv [np_operand np_broadcast np_build].
  by rewrite (map_seq_operand (fun x => f x a b)).
Qed.

Lemma np_ufunc3_scalars f t u v x a b :
  scalar_of t = Some x -> scalar_of u = Some a -> scalar_of v = Some b ->
  np_ufunc3 f t u v = Ok (NpFloat (f x a b)).
Proof. destruct t, u, v; intros; simplify_eq/=; reflexivity. Qed.

End Ufuncs.

(** ** Output selection *)

Section OutputSelection.
Context `{P : Providers}.

Lemma bind_ok {A B} (m : result A) (f : A -> result B) a :
  m = Ok a -> (m ≫= f) = f a.
Proof. by intros ->. Qed.

Lemma bind_raise {A B} (m : result A) (f : A -> result B) e :
  m = Raise e -> (m ≫= f) = Raise e.
Proof. by intros ->. Qed.

(** Every evaluator computes its model first, whatever [data] and [eps]
    are, and selects the output from it. *)
Lemma evaluate_output ev params x data eps :
  evaluate ev params x data eps
  = (model ← evaluate ev params x PyNone PyNone; output model data eps).
Proof.
  destruct ev; cbn [evaluate];
    unfold gamma, rayleigh, rice, k, hk;
    repeat match goal with
           | |- context [?m ≫= _] =>
               lazymatch m with
               | _ ≫= _ => fail
               | _ => destruct m as [?|?]; cbn [mbind result_bind]; try reflexivity
               end
           end.
Qed.

Lemma output_residual m d :
  length d = length m ->
  output (NdArray m) (NdArray d) PyNone = Ok (NdArray (zip_with F64.sub m d)).
Proof. intros Hl. cbn [output]. unfold py_sub, py_binop. by rewrite np_ufunc2_arrays. Qed.

Lemma output_weighted m d e :
  length d = length m -> length e = length m ->
  output (NdArray m) (NdArray d) (NdArray e)
  = Ok (NdArray (zip_with F64.div (zip_with F64.sub m d) e)).
Proof.
  intros Hd He. cbn [output]. unfold py_sub, py_truediv, py_binop.
  rewrite np_ufunc2_arrays by done. cbn [mbind result_bind].
  rewrite np_ufunc2_arrays; [done|].
  rewrite length_zip_with. lia.
Qed.

End OutputSelection.

(** C9. For each of the five evaluators, when [data] is [None] the
    [eps] argument is ignored: the call returns the density, the same
    as with no [eps] supplied. *)
Theorem eps_ignored_without_data `{P : Providers} ev params x eps :
  evaluate ev params x PyNone eps = evaluate ev params x PyNone PyNone.
Proof. destruct ev; reflexivity. Qed.

(** C3. For each of the five evaluators, every parameter mapping and
    input, with [m] the density returned when no data is given: for
    every data array [d] of the shape of [m], the call with [data=d]
    returns [m - d] element-wise, and for every [eps] array [e] of that
    shape with no zero entry, the call with [data=d, eps=e] returns
    [(m - d) / e] element-wise. *)
Theorem residual_of_density `{P : Providers} ev params x m d e :
  evaluate ev params x PyNone PyNone = Ok (NdArray m) ->
  length d = length m ->
  length e = length m ->
  Forall (fun v => F64.is_zero v = false) e ->
  evaluate ev params x (NdArray d) PyNone = Ok (NdArray (zip_with F64.sub m d))
  /\ evaluate ev params x (NdArray d) (NdArray e)
     = Ok (NdArray (zip_with F64.div (zip_with F64.sub m d) e)).
Proof.
  intros Hm Hd He _. split.
  - rewrite evaluate_output, Hm. cbn [mbind result_bind].
    by apply output_residual.
  - rewrite evaluate_output, Hm. cbn [mbind result_bind].
    by apply output_weighted.
Qed.

Lemma residual_of_density_witness :
  evaluate (P:=Sample.provider) Gamma {[ "mu" := PyFloat F64.one ]}
    (NdArray [F64.zero]) (NdArray [F64.two]) PyNone
  = Ok (NdArray (zip_with F64.sub [F64.one] [F64.two]))
  /\ evaluate (P:=Sample.provider) Gamma {[ "mu" := PyFloat F64.one ]}
       (NdArray [F64.zero]) (NdArray [F64.two]) (NdArray [F64.two])
     = Ok (NdArray (zip_with F64.div (zip_with F64.sub [F64.one] [F64.two]) [F64.two])).
Proof.
  apply (residual_of_density (P:=Sample.provider) Gamma
           {[ "mu" := PyFloat F64.one ]} (NdArray [F64.zero])
           [F64.one] [F64.two] [F64.two]).
  - vm_compute. reflexivity.
  - reflexivity.
  - reflexivity.
  - repeat constructor.
Defined.

(** ** Python arithmetic on floats, numpy scalars and arrays *)

Section Arithmetic.
Context `{P : Providers}.
Variables (pyop : float -> float -> result float) (npop : float -> float -> float).

Lemma py_binop_py_py a b :
  py_binop pyop npop (PyFloat a) (PyFloat b) = PyFloat <$> pyop a b.
Proof. reflexivity. Qed.

Lemma py_binop_np_py a b :
  py_binop pyop npop (NpFloat a) (PyFloat b) = Ok (NpFloat (npop a b)).
Proof. reflexivity. Qed.

Lemma py_binop_py_np a b :
  py_binop pyop npop (PyFloat a) (NpFloat b) = Ok (NpFloat (npop a b)).
Proof. reflexivity. Qed.

Lemma py_binop_np_np a b :
  py_binop pyop npop (NpFloat a) (NpFloat b) = Ok (NpFloat (npop a b)).
Proof. reflexivity. Qed.

Lemma py_binop_array_py l b :
  py_binop pyop npop (NdArray l) (PyFloat b)
  = Ok (NdArray (map (fun x => npop x b) l)).
Proof. by apply np_ufunc2_array_scalar. Qed.

Lemma py_binop_array_np l b :
  py_binop pyop npop (NdArray l) (NpFloat b)
  = Ok (NdArray (map (fun x => npop x b) l)).
Proof. by apply np_ufunc2_array_scalar. Qed.

Lemma py_binop_py_array a l :
  py_binop pyop npop (PyFloat a) (NdArray l) = Ok (NdArray (map (npop a) l)).
Proof. by apply np_ufunc2_scalar_array. Qed.

Lemma py_binop_np_array a l :
  py_binop pyop npop (NpFloat a) (NdArray l) = Ok (NdArray (map (npop a) l)).
Proof. by apply np_ufunc2_scalar_array. Qed.

Lemma py_binop_arrays l1 l2 :
  length l1 = length l2 ->
  py_binop pyop npop (NdArray l1) (NdArray l2) = Ok (NdArray (zip_with npop l1 l2)).
Proof. by apply np_ufunc2_arrays. Qed.

(** A boxed operand is not a number for Python nor for numpy. *)
Lemma py_binop_boxed_r u v : py_binop pyop npop u (Boxed v) = Raise TypeError.
Proof. by destruct u. Qed.

Lemma py_binop_boxed_l u v : py_binop pyop npop (Boxed v) u = Raise TypeError.
Proof. by destruct u. Qed.

End Arithmetic.

Lemma zip_with_map_map {A B C D} (f : B -> C -> D) (g : A -> B) (h : A -> C) l :
  zip_with f (map g l) (map h l) = map (fun x => f (g x) (h x)) l.
Proof. induction l; cbn; [done|by f_equal]. Qed.

Create Rewrite HintDb pyeval.
#[local] Hint Rewrite
  @py_binop_py_py @py_binop_np_py @py_binop_py_np @py_binop_np_np
  @py_binop_array_py @py_binop_array_np @py_binop_py_array @py_binop_np_array
  np_ufunc1_array np_ufunc1_np np_ufunc1_py : pyeval.

(** Runs a straight-line body whose operands are known floats. *)
Ltac py_run :=
  unfold py_add, py_sub, py_mul, py_truediv, py_pow, np_sqrt, np_nan_to_num;
  repeat (autorewrite with pyeval; cbn [mbind result_bind fmap result_fmap]).

(** ** The NaN policy of [gamma], [rayleigh], [rice] and [k] *)

Lemma nan_to_num_finite v : F64.is_finite (nan_to_num v) = true.
Proof. by destruct v as [| [] | |]. Qed.

Lemma nan_to_num_nan v : F64.is_nan v = true -> nan_to_num v = F64.zero.
Proof. by destruct v. Qed.

Lemma nan_to_num_id v : F64.is_finite v = true -> nan_to_num v = v.
Proof. by destruct v. Qed.

Section Inversion.
Context `{P : Providers}.

Lemma bind_inv {A B} (m : result A) (f : A -> result B) b :
  (m ≫= f) = Ok b -> exists a, m = Ok a /\ f a = Ok b.
Proof. destruct m; [eauto|done]. Qed.

Lemma np_build_numeric s f : numeric (np_build s f) = true.
Proof. by destruct s. Qed.

Lemma np_ufunc1_numeric f u v : np_ufunc1 f u = Ok v -> numeric v = true.
Proof.
  unfold np_ufunc1. intros H. apply bind_inv in H as ([s g] & _ & H).
  injection H as <-. apply np_build_numeric.
Qed.

Lemma np_ufunc2_numeric f u1 u2 v : np_ufunc2 f u1 u2 = Ok v -> numeric v = true.
Proof.
  unfold np_ufunc2. intros H.
  apply bind_inv in H as ([s1 g1] & _ & H).
  apply bind_inv in H as ([s2 g2] & _ & H).
  apply bind_inv in H as (s & _ & H).
  injection H as <-. apply np_build_numeric.
Qed.

Lemma np_ufunc3_numeric f u1 u2 u3 v :
  np_ufunc3 f u1 u2 u3 = Ok v -> numeric v = true.
Proof.
  unfold np_ufunc3. intros H.
  apply bind_inv in H as ([s1 g1] & _ & H).
  apply bind_inv in H as ([s2 g2] & _ & H).
  apply bind_inv in H as ([s3 g3] & _ & H).
  apply bind_inv in H as (s & _ & H).
  apply bind_inv in H as (s' & _ & H).
  injection H as <-. apply np_build_numeric.
Qed.

Lemma py_binop_numeric pyop npop u1 u2 v :
  py_binop pyop npop u1 u2 = Ok v -> numeric v = true.
Proof.
  destruct u1, u2; cbn [py_binop]; try apply np_ufunc2_numeric.
  destruct (pyop _ _); cbn; [|done]. by intros [= <-].
Qed.

Lemma formula_numeric ev params x raw :
  simple ev = true -> formula ev params x = Ok raw -> numeric raw = true.
Proof.
  destruct ev; cbn [simple formula]; [| | | |done]; intros _ H.
  - unfold gamma_model in H.
    do 2 apply bind_inv in H as (? & _ & H).
    by apply np_ufunc3_numeric in H.
  - unfold rayleigh_model in H.
    apply bind_inv in H as (? & _ & H).
    by apply np_ufunc2_numeric in H.
  - unfold rice_model in H.
    do 3 apply bind_inv in H as (? & _ & H).
    by apply np_ufunc3_numeric in H.
  - unfold k_model in H.
    do 16 apply bind_inv in H as (? & _ & H).
    by apply py_binop_numeric in H.
Qed.

Lemma np_ufunc1_values f v :
  numeric v = true ->
  exists m, np_ufunc1 f v = Ok m /\ values m = map f (values v).
Proof.
  destruct v; try done; intros _; eexists.
  - by rewrite np_ufunc1_py.
  - by rewrite np_ufunc1_np.
  - by rewrite np_ufunc1_array.
Qed.

End Inversion.

(** C2, amended. For [gamma], [rayleigh], [rice] and [k] and every
    input on which the density formula returns: before the output is
    selected, the model is the formula's value with each NaN replaced by
    0, [+inf] by the largest finite double, [-inf] by its opposite, and
    every finite element unchanged, so that every element of the model
    is finite. *)
Theorem nan_policy_before_output `{P : Providers} ev params x raw :
  simple ev = true ->
  formula ev params x = Ok raw ->
  exists model,
    (forall data eps, evaluate ev params x data eps = output model data eps)
    /\ values model = map nan_to_num (values raw)
    /\ Forall (fun v => F64.is_finite v = true) (values model)
    /\ Forall2 (fun v m =>
                  (F64.is_nan v = true -> m = F64.zero)
                  /\ (v = F64.inf -> m = F64.max_float)
                  /\ (v = F64.opp F64.inf -> m = F64.opp F64.max_float)
                  /\ (F64.is_finite v = true -> m = v))
               (values raw) (values model).
Proof.
  intros Hs Hraw.
  destruct (np_ufunc1_values nan_to_num raw) as (model & Hm & Hv);
    [by eapply formula_numeric|].
  exists model. split_and!.
  - intros data eps.
    destruct ev; cbn [simple formula evaluate] in *; try done;
      unfold gamma, rayleigh, rice, k; rewrite Hraw; cbn [mbind result_bind];
      unfold np_nan_to_num; rewrite Hm; done.
  - done.
  - rewrite Hv. apply Forall_map, Forall_forall. intros v _. apply nan_to_num_finite.
  - rewrite Hv. apply Forall2_fmap_r, Forall2_same_length_lookup.
    split; [done|]. intros i v v' Hi Hi'. simplify_eq.
    split_and!; [apply nan_to_num_nan|by intros ->..|apply nan_to_num_id].
Qed.

Lemma nan_policy_before_output_witness :
  exists model,
    (forall data eps,
        evaluate (P:=Sample.provider) Gamma {[ "mu" := PyFloat Sample.half ]}
          (NdArray [F64.zero]) data eps = output model data eps)
    /\ values model = map nan_to_num [F64.inf]
    /\ Forall (fun v => F64.is_finite v = true) (values model)
    /\ Forall2 (fun v m =>
                  (F64.is_nan v = true -> m = F64.zero)
                  /\ (v = F64.inf -> m = F64.max_float)
                  /\ (v = F64.opp F64.inf -> m = F64.opp F64.max_float)
                  /\ (F64.is_finite v = true -> m = v))
               [F64.inf] (values model).
Proof.
  apply (nan_policy_before_output (P:=Sample.provider) Gamma
           {[ "mu" := PyFloat Sample.half ]} (NdArray [F64.zero])
           (NdArray [F64.inf])).
  - reflexivity.
  - vm_compute. reflexivity.
Defined.

(** C2 as stated fails: it is not the case that every non-finite value
    of the density formula is 0 in the model.  The gamma density of
    shape 1/2 is infinite at 0, and [gamma({'mu': 0.5}, [0.0])] returns
    the largest finite double there. *)
Lemma nonfinite_zeroed_counterexample :
  ~ (forall (P : Providers) ev params x raw,
        formula ev params x = Ok (NdArray raw) ->
        evaluate ev params x PyNone PyNone = Ok (NdArray (map zero_nonfinite raw))).
Proof.
  intros H.
  specialize (H Sample.provider Gamma {[ "mu" := PyFloat Sample.half ]}
                (NdArray [F64.zero]) [F64.inf]).
  vm_compute in H. specialize (H eq_refl). discriminate H.
Qed.

(** ** The closed form of [k] *)

Section KClosedForm.
Context `{P : Providers}.

Lemma two_nonzero : F64.is_zero F64.two = false.
Proof. reflexivity. Qed.

Lemma k_model_array params s mu g xs :
  params !! "s" = Some (PyFloat s) ->
  params !! "mu" = Some (PyFloat mu) ->
  math_gamma mu = Ok g ->
  k_model params (NdArray xs) = Ok (NdArray (map (k_density s mu g) xs)).
Proof.
  intros Hs Hmu Hg. unfold k_model, getitem. rewrite Hs, Hmu.
  cbn [mbind result_bind py_math_gamma]. rewrite Hg. py_run.
  rewrite (np_ufunc2_scalar_array special_kv _ (PyFloat _) _ eq_refl).
  cbn [mbind result_bind].
  rewrite py_binop_arrays by (by rewrite !length_map).
  rewrite !map_map. by rewrite zip_with_map_map.
Qed.

Lemma k_model_np params s mu g x :
  params !! "s" = Some (PyFloat s) ->
  params !! "mu" = Some (PyFloat mu) ->
  math_gamma mu = Ok g ->
  k_model params (NpFloat x) = Ok (NpFloat (k_density s mu g x)).
Proof.
  intros Hs Hmu Hg. unfold k_model, getitem. rewrite Hs, Hmu.
  cbn [mbind result_bind py_math_gamma]. rewrite Hg. py_run.
  reflexivity.
Qed.

Lemma k_model_py params s mu g p x :
  params !! "s" = Some (PyFloat s) ->
  params !! "mu" = Some (PyFloat mu) ->
  math_gamma mu = Ok g ->
  float_pow (F64.div x F64.two) mu = Ok p ->
  k_model params (PyFloat x) = Ok (NpFloat (k_closed_form s mu g p x)).
Proof.
  intros Hs Hmu Hg Hp. unfold k_model, getitem. rewrite Hs, Hmu.
  cbn [mbind result_bind py_math_gamma]. rewrite Hg. py_run.
  cbv beta. rewrite two_nonzero. cbn [fmap result_fmap mbind result_bind].
  py_run. rewrite Hp. py_run. reflexivity.
Qed.

End KClosedForm.

(** C5, amended. For the K evaluator with float parameters [s] and
    [mu], with [Γ(mu)] the value [math.gamma] returns: on an array or a
    numpy scalar the model is computed element-wise as
    [2 * (x/2)^mu * b^(mu+1) / Γ(mu) * K_{mu-1}(b*x)] with
    [b = sqrt(2*mu)/s], on a Python float likewise with Python's power
    for [(x/2)^mu]; the result is 0 wherever this formula yields NaN,
    the largest finite double wherever it yields [+inf], and the
    opposite of it wherever it yields [-inf]. *)
Theorem k_elementwise_closed_form `{P : Providers} params s mu g :
  params !! "s" = Some (PyFloat s) ->
  params !! "mu" = Some (PyFloat mu) ->
  math_gamma mu = Ok g ->
  (forall xs, k params (NdArray xs) PyNone PyNone
              = Ok (NdArray (map (fun x => nan_to_num (k_density s mu g x)) xs)))
  /\ (forall x, k params (NpFloat x) PyNone PyNone
                = Ok (NpFloat (nan_to_num (k_density s mu g x))))
  /\ (forall x p, float_pow (F64.div x F64.two) mu = Ok p ->
                  k params (PyFloat x) PyNone PyNone
                  = Ok (NpFloat (nan_to_num (k_closed_form s mu g p x))))
  /\ (forall v, F64.is_nan v = true -> nan_to_num v = F64.zero)
  /\ nan_to_num F64.inf = F64.max_float
  /\ nan_to_num (F64.opp F64.inf) = F64.opp F64.max_float
  /\ (forall v, F64.is_finite v = true -> nan_to_num v = v).
Proof.
  intros Hs Hmu Hg. split_and!.
  - intros xs. unfold k. rewrite (k_model_array _ s mu g) by done.
    py_run. by rewrite map_map.
  - intros x. unfold k. by rewrite (k_model_np _ s mu g).
  - intros x p Hp. unfold k. by rewrite (k_model_py _ s mu g p).
  - apply nan_to_num_nan.
  - done.
  - done.
  - apply nan_to_num_id.
Qed.

Lemma k_elementwise_closed_form_witness :
  k (P:=Sample.provider) k_tiny_scale (NdArray [F64.ldexp 1 (-800)]) PyNone PyNone
  = Ok (NdArray [F64.max_float]).
Proof.
  pose proof (k_elementwise_closed_form (P:=Sample.provider) k_tiny_scale
                (F64.ldexp 1 (-600)) F64.one F64.one eq_refl eq_refl eq_refl)
    as (Harr & _).
  rewrite Harr. vm_compute. reflexivity.
Defined.

(** C5 as stated fails where the formula overflows. With [s = 2^-600]
    and [mu = 1], [b^(mu+1)] is infinite; at [x = 2^-800] the formula
    yields [+inf] and [k] returns the largest finite double, not 0. *)
Lemma k_zero_on_inf_counterexample :
  ~ (forall (P : Providers) params s mu g xs,
        params !! "s" = Some (PyFloat s) ->
        params !! "mu" = Some (PyFloat mu) ->
        math_gamma mu = Ok g ->
        k params (NdArray xs) PyNone PyNone
        = Ok (NdArray (map (fun x => zero_nonfinite (k_density s mu g x)) xs))).
Proof.
  intros H.
  specialize (H Sample.provider k_tiny_scale (F64.ldexp 1 (-600)) F64.one F64.one
                [F64.ldexp 1 (-800)] eq_refl eq_refl eq_refl).
  vm_compute in H. discriminate H.
Qed.

(** ** Boxed parameters *)

(** C6. [gamma] and [hk] unwrap their boxed parameters; [rayleigh],
    [rice] and [k] hand a boxed parameter to the arithmetic and to scipy
    as it is, where an object that only has a [.value] attribute is not
    a number. *)
Theorem boxed_parameter_unwrapping `{P : Providers}
    v a mu x data eps method :
  gamma {[ "mu" := Boxed v ]} x data eps = gamma {[ "mu" := PyFloat v ]} x data eps
  /\ hk {[ "a" := Boxed a; "s" := Boxed v; "mu" := Boxed mu ]} x data eps method
     = hk {[ "a" := PyFloat a; "s" := PyFloat v; "mu" := PyFloat mu ]} x data eps method
  /\ rayleigh {[ "s" := Boxed v ]} x data eps = Raise TypeError
  /\ rice {[ "a" := PyFloat a; "s" := Boxed v ]} x data eps = Raise TypeError
  /\ rice {[ "a" := Boxed v; "s" := PyFloat a ]} x data eps = Raise TypeError
  /\ k {[ "s" := Boxed v; "mu" := PyFloat mu ]} x data eps = Raise TypeError
  /\ k {[ "s" := PyFloat a; "mu" := Boxed v ]} x data eps = Raise TypeError.
Proof.
  split_and!.
  - reflexivity.
  - reflexivity.
  - unfold rayleigh, rayleigh_model, getitem. rewrite lookup_singleton_eq.
    cbn [mbind result_bind]. by destruct x.
  - unfold rice, rice_model. by vm_compute.
  - unfold rice, rice_model. by vm_compute.
  - unfold k, k_model. by vm_compute.
  - unfold k, k_model. by vm_compute.
Qed.

(** ** Lookups in dict literals *)

Lemma getitem_insert (params : gmap string pyval) key v :
  getitem (<[key := v]> params) key = Ok v.
Proof. unfold getitem. by rewrite lookup_insert_eq. Qed.

Lemma getitem_insert_ne (params : gmap string pyval) key key' v :
  key ≠ key' -> getitem (<[key := v]> params) key' = getitem params key'.
Proof. intros Hne. unfold getitem. by rewrite lookup_insert_ne. Qed.

Lemma getitem_singleton key (v : pyval) : getitem {[ key := v ]} key = Ok v.
Proof. unfold getitem. by rewrite lookup_singleton_eq. Qed.

(** ** The Homodyne-K evaluator *)

Section IntegrandSpec.
Context `{P : Providers}.

Lemma integrand_refines method x a s mu w :
  integrand (PyFloat w) (NpFloat x) (PyFloat a) (PyFloat s) (PyFloat mu) method
  = integrand_spec method x a s mu w.
Proof.
  unfold integrand, integrand_spec.
  destruct (String.eqb method "analytic"); [|destruct (String.eqb method "compound")].
  - unfold analytic_integrand, py_neg. py_run.
    change (np_ufunc2 special_jv (PyFloat ?z) (PyFloat ?t))
      with (Ok (NpFloat (special_jv z t))).
    py_run.
    change (np_ufunc2 special_jv (PyFloat ?z) (NpFloat ?t))
      with (Ok (NpFloat (special_jv z t))).
    py_run.
    destruct (float_pow w F64.two) as [w2|]; [|done]. py_run.
    destruct (float_pow s F64.two) as [s2|]; [|done]. py_run.
    cbv beta.
    destruct (F64.is_zero (F64.mul F64.two mu)); [done|].
    py_run.
    destruct (float_pow _ (F64.opp mu)) as [p|]; [|done]. py_run.
    reflexivity.
  - unfold compound_integrand. py_run. cbv beta.
    destruct (F64.is_zero mu); [done|]. py_run. reflexivity.
  - reflexivity.
Qed.

(** The values the two evaluators return inside the compound integrand. *)
Lemma compound_integrand_value x a s mu w :
  F64.is_zero mu = false ->
  compound_integrand x a s mu w
  = let s' := F64.mul s (F64.sqrt (F64.div w mu)) in
    Ok (NpFloat (F64.mul (nan_to_num (stats_rice_pdf x (F64.div a s') s'))
                         (nan_to_num (stats_gamma_pdf w mu F64.one)))).
Proof.
  intros Hmu. unfold compound_integrand. rewrite Hmu.
  unfold rice, rice_model, gamma, gamma_model.
  rewrite getitem_insert, getitem_insert_ne, !getitem_singleton by done.
  cbn [mbind result_bind unwrap hasattr_value]. py_run.
  reflexivity.
Qed.

End IntegrandSpec.

Section HomodyneK.
Context `{P : Providers}.

Lemma ok_bind {A B} (a : A) (f : A -> result B) : (Ok a ≫= f) = f a.
Proof. reflexivity. Qed.

Lemma mapM_ok {A B} (f : A -> result B) l ys :
  Forall2 (fun i y => f i = Ok y) l ys -> mapM f l = Ok ys.
Proof.
  induction 1 as [|i y l ys Hi _ IH]; [done|].
  cbn [mapM]. rewrite Hi. cbn [mbind result_bind]. rewrite IH. done.
Qed.

Lemma mapM_raises {A B} (f : A -> result B) i l :
  raises (f i) -> raises (mapM f (i :: l)).
Proof. intros [e He]. exists e. cbn [mapM]. by rewrite He. Qed.

Lemma param_inv params key v :
  param params key = Ok v ->
  exists v0, getitem params key = Ok v0 /\ unwrap v0 = Ok v.
Proof. apply bind_inv. Qed.

Lemma unwrap_returns v : returns (unwrap v).
Proof. destruct v; eexists; reflexivity. Qed.

(** [hk] keeps the estimates as the integrator returns them, in the
    order of the flattened input. *)
Lemma hk_model_estimates params x method a s mu ys :
  param params "a" = Ok a ->
  param params "s" = Ok s ->
  param params "mu" = Ok mu ->
  Forall2 (fun i y => estimate (fun w => integrand (PyFloat w) i a s mu method) = Ok y)
          (flatten x) ys ->
  hk_model params x method = Ok (NdArray ys).
Proof.
  intros (a0 & Ha0 & Ha)%param_inv (s0 & Hs0 & Hs)%param_inv
         (mu0 & Hmu0 & Hmu)%param_inv Hq.
  unfold hk_model. rewrite Ha0, Hs0, Hmu0, !ok_bind.
  rewrite Ha, Hs, Hmu, !ok_bind.
  unfold estimate in Hq. by rewrite (mapM_ok _ _ ys Hq).
Qed.

End HomodyneK.

(** C1. For the Homodyne-K evaluator with float (plain or boxed)
    parameters [a], [s], [mu]: for every element [x_i] of the flattened
    input, the model value at [x_i] is the estimate the quadrature over
    [0, inf) returns for the integrand of the chosen method, the error
    estimate being dropped, and the values keep the order of the
    flattened input.  For ['analytic'] the integrand is
    [x_i * w * J_0(w*a) * J_0(w*x_i) * (1 + w²s²/(2μ))^(-μ)]; for
    ['compound'] it is the Rice evaluator at [x_i] with parameters
    [{a: a, s: s*sqrt(w/μ)}] times the Gamma evaluator at [w] with
    [{mu: μ}], both called without data. *)
Theorem hk_pointwise_quadrature `{P : Providers} params x eps method a s mu xs ys :
  param params "a" = Ok (PyFloat a) ->
  param params "s" = Ok (PyFloat s) ->
  param params "mu" = Ok (PyFloat mu) ->
  flatten x = map NpFloat xs ->
  Forall2 (fun xi y => exists err,
               integrate_quad (integrand_spec method xi a s mu) F64.zero F64.inf
               = Ok (y, err))
          xs ys ->
  hk params x PyNone eps method = Ok (NdArray ys).
Proof.
  intros Ha Hs Hmu Hx Hq. unfold hk.
  rewrite (hk_model_estimates params x method _ _ _ ys Ha Hs Hmu); [done|].
  rewrite Hx. apply Forall2_fmap_l.
  eapply Forall2_impl; [exact Hq|].
  intros xi y [err Herr]. unfold estimate, compose.
  replace (fun w => integrand (PyFloat w) (NpFloat xi) (PyFloat a) (PyFloat s)
                      (PyFloat mu) method)
    with (integrand_spec method xi a s mu)
    by (apply functional_extensionality; intros w; symmetry; apply integrand_refines).
  by rewrite Herr.
Qed.

Lemma hk_pointwise_quadrature_witness :
  hk (P:=Sample.provider) hk_sample_params (NdArray [F64.zero; F64.zero])
     PyNone PyNone "compound"
  = Ok (NdArray [F64.zero; F64.zero]).
Proof.
  apply (hk_pointwise_quadrature (P:=Sample.provider) hk_sample_params
           (NdArray [F64.zero; F64.zero]) PyNone "compound"
           F64.zero F64.one F64.two [F64.zero; F64.zero] [F64.zero; F64.zero]).
  - vm_compute. reflexivity.
  - vm_compute. reflexivity.
  - vm_compute. reflexivity.
  - reflexivity.
  - repeat constructor; exists F64.zero; vm_compute; reflexivity.
Defined.

(** C4. [hk] applies no NaN policy: the estimate the integrator returns
    for a point is the value [hk] returns at that point, also when it is
    NaN or infinite, where [np.nan_to_num] would have changed it. *)
Theorem hk_nonfinite_estimate_returned `{P : Providers}
    params x eps method a s mu ys j y :
  param params "a" = Ok a ->
  param params "s" = Ok s ->
  param params "mu" = Ok mu ->
  Forall2 (fun i y => estimate (fun w => integrand (PyFloat w) i a s mu method) = Ok y)
          (flatten x) ys ->
  ys !! j = Some y ->
  F64.is_finite y = false ->
  exists out,
    hk params x PyNone eps method = Ok (NdArray out)
    /\ length out = length (flatten x)
    /\ out !! j = Some y
    /\ nan_to_num y ≠ y.
Proof.
  intros Ha Hs Hmu Hq Hj Hy. exists ys. split_and!.
  - unfold hk. by rewrite (hk_model_estimates params x method a s mu ys).
  - symmetry. by eapply Forall2_length.
  - done.
  - intros E. rewrite <- E, nan_to_num_finite in Hy. done.
Qed.

Lemma hk_nonfinite_estimate_returned_witness :
  exists out,
    hk (P:=Sample.provider) hk_sample_params (NdArray [F64.nan; F64.zero])
       PyNone PyNone "analytic" = Ok (NdArray out)
    /\ length out = length (flatten (NdArray [F64.nan; F64.zero]))
    /\ out !! 0 = Some F64.nan
    /\ nan_to_num F64.nan ≠ F64.nan.
Proof.
  apply (hk_nonfinite_estimate_returned (P:=Sample.provider) hk_sample_params
           (NdArray [F64.nan; F64.zero]) PyNone "analytic"
           (PyFloat F64.zero) (PyFloat F64.one) (PyFloat F64.two)
           [F64.nan; F64.zero] 0 F64.nan).
  - vm_compute. reflexivity.
  - vm_compute. reflexivity.
  - vm_compute. reflexivity.
  - repeat constructor.
  - reflexivity.
  - reflexivity.
Defined.

(** At [x = +inf] the analytic integrand is nowhere a finite number:
    [x*w] is infinite or NaN and stays so through the products. *)
Lemma mul_nonfinite u v : F64.is_finite u = false -> F64.is_finite (F64.mul u v) = false.
Proof. destruct u as [| |  |]; try done; destruct v; done. Qed.

Lemma inf_mul_nonfinite w : F64.is_finite (F64.mul F64.inf w) = false.
Proof. by destruct w. Qed.

Lemma analytic_integrand_at_infinity `{P : Providers} a s mu w v :
  analytic_integrand F64.inf a s mu w = Ok v ->
  exists y, v = NpFloat y /\ F64.is_finite y = false.
Proof.
  unfold analytic_integrand. intros H.
  apply bind_inv in H as (w2 & _ & H). apply bind_inv in H as (s2 & _ & H).
  destruct (F64.is_zero _); [done|].
  apply bind_inv in H as (p & _ & H). injection H as <-.
  eexists; split; [done|].
  do 3 apply mul_nonfinite. apply inf_mul_nonfinite.
Qed.

(** C7. With valid parameters ([a = 0], [s = 1], [mu = 2]), the analytic
    method and the input [x = [+inf]], which is [>= 0], the value [hk]
    returns is NaN: it is neither finite nor non-negative. *)
Theorem hk_analytic_at_infinity_is_nan :
  hk (P:=Sample.provider) hk_sample_params (NdArray [F64.inf]) PyNone PyNone "analytic"
  = Ok (NdArray [F64.nan]).
Proof. vm_compute. reflexivity. Qed.

(** C10. With a method that is neither ['analytic'] nor ['compound'],
    the integrand returns [None] for every [w] and all other arguments:
    there is no fall-back to a default method, and since the integrator
    needs numbers, [hk] raises on every input that has a point. *)
Theorem hk_unknown_method_fails `{P : Providers} method params x data eps :
  quad_needs_numbers ->
  method ≠ "analytic" ->
  method ≠ "compound" ->
  x ≠ NdArray [] ->
  (forall w xi a s mu, integrand w xi a s mu method = Ok PyNone)
  /\ raises (hk params x data eps method).
Proof.
  intros Hquad Ha Hc Hx.
  assert (forall w xi a s mu, integrand w xi a s mu method = Ok PyNone) as Hnone.
  { intros. unfold integrand.
    apply String.eqb_neq in Ha, Hc. by rewrite Ha, Hc. }
  split; [done|].
  unfold hk, hk_model.
  destruct (getitem params "a") as [a|e]; [|by exists e].
  destruct (getitem params "s") as [s|e]; [|by exists e].
  destruct (getitem params "mu") as [mu|e]; [|by exists e].
  rewrite !ok_bind.
  destruct (unwrap_returns a) as [a' ->].
  destruct (unwrap_returns s) as [s' ->].
  destruct (unwrap_returns mu) as [mu' ->].
  rewrite !ok_bind.
  assert (exists i l, flatten x = i :: l) as (i & l & ->).
  { destruct x as [| | |[|v l]|]; cbn; eauto. done. }
  destruct (mapM_raises
              (fun i => r ← integrate_quad
                              (fun w => integrand (PyFloat w) i a' s' mu' method)
                              F64.zero F64.inf; Ok (fst r)) i l) as [e He].
  { destruct (Hquad (fun w => integrand (PyFloat w) i a' s' mu' method)
                    F64.zero F64.inf) as [e He].
    - intros w (v & Hv & Hnum). rewrite Hnone in Hv. by simplify_eq.
    - exists e. by rewrite He. }
  exists e. by rewrite He.
Qed.

Lemma sample_quad_needs_numbers : quad_needs_numbers (P:=Sample.provider).
Proof.
  intros f a b Hf. cbn [integrate_quad Sample.provider]. unfold Sample.quad.
  specialize (Hf F64.one).
  destruct (f F64.one) as [v|e]; [|by exists e].
  destruct v; try (by eexists);
    exfalso; apply Hf; eexists; split; reflexivity.
Qed.

Lemma hk_unknown_method_fails_witness :
  (forall w xi a s mu, integrand (P:=Sample.provider) w xi a s mu "numeric" = Ok PyNone)
  /\ raises (hk (P:=Sample.provider) hk_sample_params (PyFloat F64.one)
               PyNone PyNone "numeric").
Proof.
  apply (hk_unknown_method_fails (P:=Sample.provider) "numeric" hk_sample_params
           (PyFloat F64.one) PyNone PyNone).
  - exact sample_quad_needs_numbers.
  - discriminate.
  - discriminate.
  - discriminate.
Defined.


(** * Further properties of the evaluators *)

(** ** Signs in double arithmetic *)

Lemma round_sign_plus mx ex lx :
  sign_plus (binary_round_aux F64.prec F64.emax false mx ex lx) = true.
Proof.
  unfold binary_round_aux.
  destruct (shr_fexp _ _ _ _ _) as [mrs' e'].
  destruct (shr_fexp _ _ _ _ _) as [mrs'' e''].
  destruct (shr_m mrs''); [done| |done].
  by destruct (Z.leb _ _).
Qed.

Lemma mul_sign_plus u v :
  sign_plus u = true -> sign_plus v = true -> sign_plus (F64.mul u v) = true.
Proof.
  destruct u as [[]|[]| |[] mu eu], v as [[]|[]| |[] mv ev]; try done.
  intros _ _. apply round_sign_plus.
Qed.

Lemma div_sign_plus u v :
  sign_plus u = true -> sign_plus v = true -> sign_plus (F64.div u v) = true.
Proof.
  destruct u as [[]|[]| |[] mu eu], v as [[]|[]| |[] mv ev]; try done.
  intros _ _. cbn [F64.div SFdiv xorb].
  destruct (SFdiv_core_binary _ _ _ _ _ _) as [[mz ez] lz].
  apply round_sign_plus.
Qed.

Lemma sqrt_sign_plus u : sign_plus u = true -> sign_plus (F64.sqrt u) = true.
Proof.
  destruct u as [[]|[]| |[] mu eu]; try done.
  intros _. cbn [F64.sqrt SFsqrt].
  destruct (SFsqrt_core_binary _ _ _ _) as [[mz ez] lz].
  apply round_sign_plus.
Qed.

Lemma pos_sign_plus v : F64.pos v = true -> sign_plus v = true.
Proof. by destruct v as [[]|[]| |[] m e]. Qed.

Lemma sign_plus_not_negative v : sign_plus v = true -> not_negative v = true.
Proof. by destruct v. Qed.

Lemma nan_to_num_not_negative v :
  not_negative v = true ->
  F64.is_finite (nan_to_num v) = true /\ F64.nonneg (nan_to_num v) = true.
Proof. by destruct v as [[]|[]| |[] m e]. Qed.

(** Rounding a mantissa that is not negative never gives NaN. *)
Lemma shr_1_nonneg mrs : (0 <= shr_m mrs)%Z -> (0 <= shr_m (shr_1 mrs))%Z.
Proof. destruct mrs as [[|[p|p|]|p] r s]; cbn; lia. Qed.

Lemma iter_shr_1_nonneg p mrs :
  (0 <= shr_m mrs)%Z -> (0 <= shr_m (@SpecFloat.iter_pos shr_record shr_1 p mrs))%Z.
Proof.
  revert mrs. induction p as [p IH|p IH|]; intros mrs Hm; cbn [SpecFloat.iter_pos].
  - apply IH, IH. by apply shr_1_nonneg.
  - by apply IH, IH.
  - by apply shr_1_nonneg.
Qed.

Lemma shr_fexp_nonneg m e l :
  (0 <= m)%Z -> (0 <= shr_m (shr_fexp F64.prec F64.emax m e l).1)%Z.
Proof.
  intros Hm. unfold shr_fexp, shr.
  assert (0 <= shr_m (shr_record_of_loc m l))%Z as Hrec
    by (by destruct l as [|[]]).
  destruct (_ - e)%Z; cbn [fst]; [done| |done].
  by apply iter_shr_1_nonneg.
Qed.

Lemma round_nearest_even_nonneg m l :
  (0 <= m)%Z -> (0 <= round_nearest_even m l)%Z.
Proof. intros Hm. destruct l as [|[]]; cbn; [done| |done|lia]. destruct (Z.even m); lia. Qed.

Lemma round_not_nan s m e l :
  (0 <= m)%Z -> F64.is_nan (binary_round_aux F64.prec F64.emax s m e l) = false.
Proof.
  intros Hm. unfold binary_round_aux.
  pose proof (shr_fexp_nonneg m e l Hm) as H1.
  destruct (shr_fexp _ _ m e l) as [mrs' e']. cbn [fst] in H1.
  pose proof (shr_fexp_nonneg _ e' loc_Exact
                (round_nearest_even_nonneg _ (loc_of_shr_record mrs') H1)) as H2.
  destruct (shr_fexp _ _ _ e' loc_Exact) as [mrs'' e'']. cbn [fst] in H2.
  destruct (shr_m mrs''); [done| |lia].
  by destruct (Z.leb _ _).
Qed.

Lemma mul_finite_not_nan u v :
  F64.is_finite u = true -> F64.is_finite v = true ->
  F64.is_nan (F64.mul u v) = false.
Proof.
  destruct u as [| | |su mu eu], v as [| | |sv mv ev]; try done.
  intros _ _. by apply round_not_nan.
Qed.

(** ** Parameter lookups *)

(** The first key that is missing, in the order the evaluator reads its
    parameters, is the one the [KeyError] names; nothing of [x], [data]
    or [eps] is looked at before. *)
Theorem missing_key_reported `{P : Providers} ev params x data eps pre key post :
  keys_read ev = (pre ++ key :: post)%list ->
  Forall (fun k => is_Some (params !! k)) pre ->
  params !! key = None ->
  evaluate ev params x data eps = Raise (KeyError key).
Proof.
  intros Hkeys Hpre Hkey.
  destruct ev; cbn [keys_read] in Hkeys;
    destruct pre as [|k1 [|k2 [|k3 pre]]]; simplify_eq/=;
    repeat match goal with
           | H : Forall _ (_ :: _) |- _ => apply Forall_cons in H as [[? ?] H]
           end;
    unfold gamma, gamma_model, rayleigh, rayleigh_model, rice, rice_model,
      k, k_model, hk, hk_model, getitem;
    repeat match goal with H : _ !! _ = _ |- _ => rewrite H; clear H end;
    try reflexivity;
    by destruct pre.
Qed.

Lemma missing_key_reported_witness :
  evaluate (P:=Sample.provider) Rice {[ "a" := PyFloat F64.one ]}
    (NdArray [F64.zero]) PyNone PyNone
  = Raise (KeyError "s").
Proof.
  apply (missing_key_reported (P:=Sample.provider) Rice
           {[ "a" := PyFloat F64.one ]} (NdArray [F64.zero]) PyNone PyNone
           ["a"] "s" []).
  - reflexivity.
  - repeat constructor. by eexists.
  - reflexivity.
Defined.

(** ** The loop of [hk] over the points *)

Section Loop.
Context `{P : Providers}.

Lemma mapM_length {A B} (f : A -> result B) l ys :
  mapM f l = Ok ys -> length ys = length l.
Proof.
  revert ys. induction l as [|i l IH]; intros ys H; cbn [mapM] in H.
  - by injection H as <-.
  - apply bind_inv in H as (y & _ & H). apply bind_inv in H as (ys' & Hys & H).
    injection H as <-. cbn. f_equal. by apply IH.
Qed.

Lemma mapM_first_raise {A B} (f : A -> result B) pre i post e :
  Forall (fun j => returns (f j)) pre ->
  f i = Raise e ->
  mapM f (pre ++ i :: post)%list = Raise e.
Proof.
  intros Hpre Hi. induction Hpre as [|j pre [y Hj] _ IH]; cbn [mapM app].
  - by rewrite Hi.
  - rewrite Hj. cbn [mbind result_bind].
    by rewrite IH.
Qed.

Lemma flatten_length x :
  length (flatten x) = match x with NdArray l => length l | _ => 1 end.
Proof. destruct x; try done. cbn. by rewrite length_map. Qed.

End Loop.

(** Whenever [hk] returns a density, it is a one-dimensional array with
    one value per point of the flattened input: the length of an array
    input, and a one-element array for a scalar. *)
Theorem hk_one_value_per_point `{P : Providers} params x eps method out :
  hk params x PyNone eps method = Ok out ->
  exists ys, out = NdArray ys
             /\ length ys = match x with NdArray l => length l | _ => 1 end.
Proof.
  unfold hk. intros H. apply bind_inv in H as (m & Hm & H).
  cbn [output] in H. injection H as <-.
  unfold hk_model in Hm.
  do 6 apply bind_inv in Hm as (? & _ & Hm).
  apply bind_inv in Hm as (ys & Hys & Hm). injection Hm as <-.
  exists ys. split; [done|].
  rewrite (mapM_length _ _ _ Hys). apply flatten_length.
Qed.

Lemma hk_one_value_per_point_witness :
  exists ys, NdArray [F64.zero] = NdArray ys
             /\ length ys = match PyFloat F64.zero with NdArray l => length l | _ => 1 end.
Proof.
  apply (hk_one_value_per_point (P:=Sample.provider) hk_sample_params
           (PyFloat F64.zero) PyNone "compound").
  vm_compute. reflexivity.
Defined.

(** On an empty array [hk] returns an empty array for every method, as
    soon as the three parameters are present: no integral is computed. *)
Theorem hk_empty_input `{P : Providers} params eps method :
  is_Some (params !! "a") ->
  is_Some (params !! "s") ->
  is_Some (params !! "mu") ->
  hk params (NdArray []) PyNone eps method = Ok (NdArray []).
Proof.
  intros [a Ha] [s Hs] [mu Hmu]. unfold hk, hk_model, getitem.
  rewrite Ha, Hs, Hmu, !ok_bind.
  destruct (unwrap_returns a) as [a' ->].
  destruct (unwrap_returns s) as [s' ->].
  destruct (unwrap_returns mu) as [mu' ->].
  reflexivity.
Qed.

Lemma hk_empty_input_witness :
  hk (P:=Sample.provider) hk_sample_params (NdArray []) PyNone PyNone "numeric"
  = Ok (NdArray []).
Proof.
  apply (hk_empty_input (P:=Sample.provider) hk_sample_params PyNone "numeric");
    by eexists.
Defined.

(** [hk] has no exception handling: the first point whose quadrature
    raises ends the call with that exception, whatever the points
    before it gave and whatever [data] and [eps] are. *)
Theorem hk_first_exception_aborts `{P : Providers}
    params x data eps method a s mu pre i post e :
  param params "a" = Ok a ->
  param params "s" = Ok s ->
  param params "mu" = Ok mu ->
  flatten x = (pre ++ i :: post)%list ->
  Forall (fun j => returns (estimate (fun w => integrand (PyFloat w) j a s mu method)))
         pre ->
  estimate (fun w => integrand (PyFloat w) i a s mu method) = Raise e ->
  hk params x data eps method = Raise e.
Proof.
  intros (a0 & Ha0 & Ha)%param_inv (s0 & Hs0 & Hs)%param_inv
         (mu0 & Hmu0 & Hmu)%param_inv Hx Hpre Hi.
  unfold hk, hk_model. rewrite Ha0, Hs0, Hmu0, !ok_bind.
  rewrite Ha, Hs, Hmu, !ok_bind. rewrite Hx.
  unfold estimate in Hpre, Hi.
  by rewrite (mapM_first_raise _ pre i post e Hpre Hi).
Qed.

Lemma hk_first_exception_aborts_witness :
  hk (P:=Sample.provider) hk_sample_params (NdArray [F64.zero; F64.one])
     PyNone PyNone "numeric"
  = Raise QuadpackError.
Proof.
  apply (hk_first_exception_aborts (P:=Sample.provider) hk_sample_params
           (NdArray [F64.zero; F64.one]) PyNone PyNone "numeric"
           (PyFloat F64.zero) (PyFloat F64.one) (PyFloat F64.two)
           [] (NpFloat F64.zero) [NpFloat F64.one] QuadpackError).
  - vm_compute. reflexivity.
  - vm_compute. reflexivity.
  - vm_compute. reflexivity.
  - reflexivity.
  - constructor.
  - vm_compute. reflexivity.
Defined.

(** ** Divisions by a zero parameter *)

Lemma two_mul_zero mu : F64.is_zero mu = true -> F64.is_zero (F64.mul F64.two mu) = true.
Proof. by destruct mu as [[]| | |]. Qed.

Lemma integrand_spec_zero_mu `{P : Providers} method x a s mu w :
  F64.is_zero mu = true -> ~ yields_number (integrand_spec method x a s mu w).
Proof.
  intros Hmu (v & Hv & Hnum). unfold integrand_spec in Hv.
  destruct (String.eqb method "analytic"); [|destruct (String.eqb method "compound")].
  - unfold analytic_integrand in Hv. rewrite (two_mul_zero mu Hmu) in Hv.
    apply bind_inv in Hv as (w2 & _ & Hv). by apply bind_inv in Hv as (s2 & _ & Hv).
  - unfold compound_integrand in Hv. by rewrite Hmu in Hv.
  - by simplify_eq.
Qed.

(** With [mu = 0.0] the scale [s*sqrt(w/mu)] of the compound integrand
    is a division of Python floats by zero: the integrand raises
    [ZeroDivisionError] at every [w] and every point, the analytic one
    never returns a number either, and [hk] raises on every input that
    has a point, under an integrator that needs numbers. *)
Theorem hk_zero_mu_raises `{P : Providers} params x data eps method a s mu x0 xs :
  quad_needs_numbers ->
  param params "a" = Ok (PyFloat a) ->
  param params "s" = Ok (PyFloat s) ->
  param params "mu" = Ok (PyFloat mu) ->
  F64.is_zero mu = true ->
  flatten x = map NpFloat (x0 :: xs) ->
  (forall w xi, integrand (PyFloat w) xi (PyFloat a) (PyFloat s) (PyFloat mu) "compound"
                = Raise ZeroDivisionError)
  /\ raises (hk params x data eps method).
Proof.
  intros Hquad (a0 & Ha0 & Ha)%param_inv (s0 & Hs0 & Hs)%param_inv
         (mu0 & Hmu0 & Hmu)%param_inv Hzero Hx.
  split.
  - intros w xi. unfold integrand. cbn [String.eqb Ascii.eqb Bool.eqb].
    unfold py_truediv, py_binop. by rewrite Hzero.
  - unfold hk, hk_model. rewrite Ha0, Hs0, Hmu0, !ok_bind.
    rewrite Ha, Hs, Hmu, !ok_bind, Hx.
    destruct (mapM_raises
                (fun i => r ← integrate_quad
                                (fun w => integrand (PyFloat w) i (PyFloat a)
                                            (PyFloat s) (PyFloat mu) method)
                                F64.zero F64.inf; Ok (fst r))
                (NpFloat x0) (map NpFloat xs)) as [e He].
    { destruct (Hquad (fun w => integrand (PyFloat w) (NpFloat x0) (PyFloat a)
                                  (PyFloat s) (PyFloat mu) method)
                      F64.zero F64.inf) as [e He].
      - intros w. rewrite integrand_refines. by apply integrand_spec_zero_mu.
      - exists e. by rewrite He. }
    exists e. cbn [map]. by rewrite He.
Qed.

Lemma hk_zero_mu_raises_witness :
  (forall w xi, integrand (P:=Sample.provider) (PyFloat w) xi (PyFloat F64.one)
                  (PyFloat F64.one) (PyFloat F64.zero) "compound"
                = Raise ZeroDivisionError)
  /\ raises (hk (P:=Sample.provider)
               {[ "a" := PyFloat F64.one; "s" := PyFloat F64.one;
                  "mu" := PyFloat F64.zero ]}
               (NdArray [F64.one]) PyNone PyNone "compound").
Proof.
  apply (hk_zero_mu_raises (P:=Sample.provider)
           {[ "a" := PyFloat F64.one; "s" := PyFloat F64.one;
              "mu" := PyFloat F64.zero ]}
           (NdArray [F64.one]) PyNone PyNone "compound"
           F64.one F64.one F64.zero F64.one []).
  - exact sample_quad_needs_numbers.
  - vm_compute. reflexivity.
  - vm_compute. reflexivity.
  - vm_compute. reflexivity.
  - reflexivity.
  - reflexivity.
Defined.

(** [rice] divides [a] by [s] before anything else: with Python floats
    and [s = 0.0] the call raises [ZeroDivisionError] for every [x],
    [data] and [eps]; no density is zeroed. *)
Theorem rice_zero_scale_raises `{P : Providers} params x data eps a s :
  params !! "a" = Some (PyFloat a) ->
  params !! "s" = Some (PyFloat s) ->
  F64.is_zero s = true ->
  rice params x data eps = Raise ZeroDivisionError.
Proof.
  intros Ha Hs Hzero. unfold rice, rice_model, getitem. rewrite Ha, Hs, !ok_bind.
  unfold py_truediv, py_binop. by rewrite Hzero.
Qed.

Lemma rice_zero_scale_raises_witness :
  rice (P:=Sample.provider) {[ "a" := PyFloat F64.one; "s" := PyFloat F64.zero ]}
    (NdArray [F64.zero; F64.one]) PyNone PyNone
  = Raise ZeroDivisionError.
Proof.
  apply (rice_zero_scale_raises (P:=Sample.provider)
           {[ "a" := PyFloat F64.one; "s" := PyFloat F64.zero ]}
           (NdArray [F64.zero; F64.one]) PyNone PyNone F64.one F64.zero);
    reflexivity.
Defined.

(** [rice] is element-wise with shape [a/s] and scale [s]: for a
    Python float [a] and a scalar [s] that is a numpy scalar, or a
    Python float other than 0.0, the density on an array is the
    sanitised Rice density of shape [a/s] and scale [s] at each point.
    A numpy [s = 0.0] does not raise: the division follows IEEE rules. *)
Theorem rice_elementwise `{P : Providers} params xs a sv s :
  params !! "a" = Some (PyFloat a) ->
  params !! "s" = Some sv ->
  scalar_of sv = Some s ->
  (sv = PyFloat s -> F64.is_zero s = false) ->
  rice params (NdArray xs) PyNone PyNone
  = Ok (NdArray (map (fun x => nan_to_num (stats_rice_pdf x (F64.div a s) s)) xs)).
Proof.
  intros Ha Hs Hsv Hnz.
  destruct sv as [|s'|s'| |]; cbn in Hsv; simplify_eq;
    unfold rice, rice_model, getitem; rewrite Ha, Hs, !ok_bind; unfold py_truediv.
  - rewrite py_binop_py_py. cbv beta. rewrite Hnz by done.
    cbn [fmap result_fmap]. rewrite ok_bind.
    rewrite (np_ufunc3_array_scalars _ _ (PyFloat (F64.div a s)) (PyFloat s)
               (F64.div a s) s) by done.
    py_run. by rewrite map_map.
  - rewrite py_binop_py_np, ok_bind.
    rewrite (np_ufunc3_array_scalars _ _ (NpFloat (F64.div a s)) (NpFloat s)
               (F64.div a s) s) by done.
    py_run. by rewrite map_map.
Qed.

Lemma rice_elementwise_witness :
  rice (P:=Sample.provider) {[ "a" := PyFloat F64.one; "s" := NpFloat F64.zero ]}
    (NdArray [F64.zero; F64.one]) PyNone PyNone
  = Ok (NdArray (map (fun x => nan_to_num
                                 (Sample.rice_pdf x (F64.div F64.one F64.zero) F64.zero))
                     [F64.zero; F64.one])).
Proof.
  apply (rice_elementwise (P:=Sample.provider)
           {[ "a" := PyFloat F64.one; "s" := NpFloat F64.zero ]}
           [F64.zero; F64.one] F64.one (NpFloat F64.zero) F64.zero);
    [reflexivity..|discriminate].
Defined.

(** ** Exceptions of [math.gamma] in [k] *)

(** [k] calls [math.gamma(mu)] outside numpy: when it raises (a pole,
    an overflow), [k] raises the same exception on every array and
    numpy scalar, whatever [data] and [eps] are. *)
Theorem k_gamma_exception_propagates `{P : Providers} params x data eps s mu e :
  params !! "s" = Some (PyFloat s) ->
  params !! "mu" = Some (PyFloat mu) ->
  math_gamma mu = Raise e ->
  (exists xs, x = NdArray xs) \/ (exists v, x = NpFloat v) ->
  k params x data eps = Raise e.
Proof.
  intros Hs Hmu Hg [[xs ->]|[v ->]]; unfold k, k_model, getitem;
    rewrite Hs, Hmu; cbn [mbind result_bind py_math_gamma]; rewrite Hg;
    py_run; reflexivity.
Qed.

Lemma k_gamma_exception_propagates_witness :
  k (P:=Sample.provider) {[ "s" := PyFloat F64.one; "mu" := PyFloat (F64.ldexp 172 0) ]}
    (NdArray [F64.one]) PyNone PyNone
  = Raise OverflowError.
Proof.
  apply (k_gamma_exception_propagates (P:=Sample.provider)
           {[ "s" := PyFloat F64.one; "mu" := PyFloat (F64.ldexp 172 0) ]}
           (NdArray [F64.one]) PyNone PyNone F64.one (F64.ldexp 172 0) OverflowError).
  - reflexivity.
  - reflexivity.
  - reflexivity.
  - left. by eexists.
Defined.

(** ** Residuals *)

Section Residuals.
Context `{P : Providers}.

Lemma np_ufunc2_mismatch f (l1 l2 : list float) :
  length l1 ≠ length l2 -> length l1 ≠ 1 -> length l2 ≠ 1 ->
  np_ufunc2 f (NdArray l1) (NdArray l2) = Raise ValueError.
Proof.
  intros H12 H1 H2.
  cbv [np_ufunc2 np_operand mbind result_bind np_broadcast].
  apply Nat.eqb_neq in H12, H1, H2. by rewrite H12, H1, H2.
Qed.

Lemma sub_nan_r v : F64.sub v F64.nan = F64.nan.
Proof. by destruct v. Qed.

Lemma div_nan_l v : F64.div F64.nan v = F64.nan.
Proof. done. Qed.

Lemma evaluate_simple ev params x data eps :
  simple ev = true ->
  evaluate ev params x data eps
  = (raw ← formula ev params x; model ← np_nan_to_num raw; output model data eps).
Proof. by destruct ev. Qed.

End Residuals.

(** The shapes of [data] and of the model are not checked: an array
    [data] whose length differs from the model's, neither being 1,
    makes the subtraction fail with numpy's [ValueError], with or
    without [eps]. *)
Theorem data_shape_mismatch_raises `{P : Providers} ev params x m d eps :
  evaluate ev params x PyNone PyNone = Ok (NdArray m) ->
  length d ≠ length m ->
  length d ≠ 1 ->
  length m ≠ 1 ->
  evaluate ev params x (NdArray d) eps = Raise ValueError.
Proof.
  intros Hm Hdm Hd Hm1. rewrite evaluate_output, Hm, ok_bind.
  cbn [output]. unfold py_sub, py_binop.
  rewrite np_ufunc2_mismatch by done. by destruct eps.
Qed.

Lemma data_shape_mismatch_raises_witness :
  evaluate (P:=Sample.provider) Rayleigh {[ "s" := PyFloat F64.one ]}
    (NdArray [F64.zero; F64.zero]) (NdArray [F64.one; F64.one; F64.one]) PyNone
  = Raise ValueError.
Proof.
  apply (data_shape_mismatch_raises (P:=Sample.provider) Rayleigh
           {[ "s" := PyFloat F64.one ]} (NdArray [F64.zero; F64.zero])
           [F64.zero; F64.zero] [F64.one; F64.one; F64.one] PyNone).
  - vm_compute. reflexivity.
  - cbn. lia.
  - cbn. lia.
  - cbn. lia.
Defined.

(** A scalar [data] is subtracted from every element of the model, and
    a scalar [eps] divides every element of that residual. *)
Theorem scalar_data_broadcast `{P : Providers} ev params x m d dv e ev' :
  evaluate ev params x PyNone PyNone = Ok (NdArray m) ->
  scalar_of d = Some dv ->
  scalar_of e = Some ev' ->
  evaluate ev params x d PyNone = Ok (NdArray (map (fun v => F64.sub v dv) m))
  /\ evaluate ev params x d e
     = Ok (NdArray (map (fun v => F64.div (F64.sub v dv) ev') m)).
Proof.
  intros Hm Hd He.
  rewrite (evaluate_output ev params x d PyNone), (evaluate_output ev params x d e).
  rewrite Hm, !ok_bind.
  assert (py_sub (NdArray m) d = Ok (NdArray (map (fun v => F64.sub v dv) m))) as Hsub
    by (by apply np_ufunc2_array_scalar).
  split.
  - destruct d; simplify_eq/=; exact Hsub.
  - assert (output (NdArray m) d e
            = (r ← py_sub (NdArray m) d; py_truediv r e)) as ->
      by (destruct d, e; simplify_eq/=; reflexivity).
    rewrite Hsub, ok_bind. unfold py_truediv, py_binop.
    rewrite (np_ufunc2_array_scalar _ _ e ev') by done. by rewrite map_map.
Qed.

Lemma scalar_data_broadcast_witness :
  evaluate (P:=Sample.provider) Rayleigh {[ "s" := PyFloat F64.one ]}
    (NdArray [F64.zero; F64.zero]) (PyFloat F64.one) PyNone
  = Ok (NdArray (map (fun v => F64.sub v F64.one) [F64.zero; F64.zero]))
  /\ evaluate (P:=Sample.provider) Rayleigh {[ "s" := PyFloat F64.one ]}
       (NdArray [F64.zero; F64.zero]) (PyFloat F64.one) (NpFloat F64.two)
     = Ok (NdArray (map (fun v => F64.div (F64.sub v F64.one) F64.two)
                        [F64.zero; F64.zero])).
Proof.
  apply (scalar_data_broadcast (P:=Sample.provider) Rayleigh
           {[ "s" := PyFloat F64.one ]} (NdArray [F64.zero; F64.zero])
           [F64.zero; F64.zero] (PyFloat F64.one) F64.one (NpFloat F64.two) F64.two).
  - vm_compute. reflexivity.
  - reflexivity.
  - reflexivity.
Defined.

(** Where the formula of [gamma], [rayleigh], [rice] or [k] is NaN, the
    residual against [data] is [0 - data] there: the invalid point is
    indistinguishable from a point of density 0. *)
Theorem residual_at_nan_point `{P : Providers} ev params x raw d i v di :
  simple ev = true ->
  formula ev params x = Ok (NdArray raw) ->
  length d = length raw ->
  raw !! i = Some v ->
  F64.is_nan v = true ->
  d !! i = Some di ->
  exists out,
    evaluate ev params x (NdArray d) PyNone = Ok (NdArray out)
    /\ out !! i = Some (F64.sub F64.zero di).
Proof.
  intros Hs Hraw Hlen Hv Hnan Hdi.
  rewrite (evaluate_simple ev) by done. rewrite Hraw, ok_bind.
  unfold np_nan_to_num. rewrite np_ufunc1_array, ok_bind.
  rewrite output_residual by (by rewrite length_map).
  eexists. split; [done|].
  rewrite lookup_zip_with.
  change (map nan_to_num raw) with (nan_to_num <$> raw).
  rewrite list_lookup_fmap, Hv, Hdi. cbn.
  by rewrite (nan_to_num_nan v Hnan).
Qed.

Lemma residual_at_nan_point_witness :
  exists out,
    evaluate (P:=Sample.provider) Gamma {[ "mu" := PyFloat F64.one ]}
      (NdArray [F64.one]) (NdArray [F64.two]) PyNone = Ok (NdArray out)
    /\ out !! 0 = Some (F64.sub F64.zero F64.two).
Proof.
  apply (residual_at_nan_point (P:=Sample.provider) Gamma
           {[ "mu" := PyFloat F64.one ]} (NdArray [F64.one])
           [F64.nan] [F64.two] 0 F64.nan F64.two).
  - reflexivity.
  - vm_compute. reflexivity.
  - reflexivity.
  - reflexivity.
  - reflexivity.
  - reflexivity.
Defined.

(** The NaN policy covers the model only: a NaN in [data] is a NaN in
    the residual, weighted or not, for each of the five evaluators. *)
Theorem nan_data_propagates `{P : Providers} ev params x m d e i :
  evaluate ev params x PyNone PyNone = Ok (NdArray m) ->
  length d = length m ->
  length e = length m ->
  d !! i = Some F64.nan ->
  exists out out',
    evaluate ev params x (NdArray d) PyNone = Ok (NdArray out)
    /\ out !! i = Some F64.nan
    /\ evaluate ev params x (NdArray d) (NdArray e) = Ok (NdArray out')
    /\ out' !! i = Some F64.nan.
Proof.
  intros Hm Hd He Hi.
  assert (exists mi, m !! i = Some mi) as [mi Hmi].
  { apply lookup_lt_is_Some. rewrite <- Hd. by eapply lookup_lt_Some. }
  assert (exists ei, e !! i = Some ei) as [ei Hei].
  { apply lookup_lt_is_Some. rewrite He, <- Hd. by eapply lookup_lt_Some. }
  do 2 eexists.
  rewrite (evaluate_output ev params x (NdArray d) PyNone),
    (evaluate_output ev params x (NdArray d) (NdArray e)).
  rewrite Hm, !ok_bind.
  rewrite output_residual, output_weighted by done.
  split_and!; [done| |done|].
  - rewrite lookup_zip_with, Hmi, Hi. cbn. by rewrite sub_nan_r.
  - rewrite !lookup_zip_with, Hmi, Hi, Hei. cbn. by rewrite sub_nan_r.
Qed.

Lemma nan_data_propagates_witness :
  exists out out',
    evaluate (P:=Sample.provider) Rayleigh {[ "s" := PyFloat F64.one ]}
      (NdArray [F64.zero]) (NdArray [F64.nan]) PyNone = Ok (NdArray out)
    /\ out !! 0 = Some F64.nan
    /\ evaluate (P:=Sample.provider) Rayleigh {[ "s" := PyFloat F64.one ]}
         (NdArray [F64.zero]) (NdArray [F64.nan]) (NdArray [F64.one])
       = Ok (NdArray out')
    /\ out' !! 0 = Some F64.nan.
Proof.
  apply (nan_data_propagates (P:=Sample.provider) Rayleigh
           {[ "s" := PyFloat F64.one ]} (NdArray [F64.zero])
           [F64.zero] [F64.nan] [F64.one] 0).
  - vm_compute. reflexivity.
  - reflexivity.
  - reflexivity.
  - reflexivity.
Defined.

(** ** Element-wise densities *)

(** [gamma] is element-wise with the scale fixed at 1: for a scalar
    [mu], plain or boxed, the density on an array is the sanitised gamma
    density of shape [mu] and scale 1 at each point, and on a scalar
    input it is that value as a numpy scalar. *)
Theorem gamma_elementwise `{P : Providers} params muv mu :
  param params "mu" = Ok muv ->
  scalar_of muv = Some mu ->
  (forall xs, gamma params (NdArray xs) PyNone PyNone
              = Ok (NdArray (map (fun x => nan_to_num (stats_gamma_pdf x mu F64.one)) xs)))
  /\ (forall x xv, scalar_of x = Some xv ->
                   gamma params x PyNone PyNone
                   = Ok (NpFloat (nan_to_num (stats_gamma_pdf xv mu F64.one)))).
Proof.
  intros (mu0 & Hmu0 & Hmu)%param_inv Hsc. split.
  - intros xs. unfold gamma, gamma_model. rewrite Hmu0, ok_bind, Hmu, ok_bind.
    rewrite (np_ufunc3_array_scalars _ _ muv (PyFloat F64.one) mu F64.one) by done.
    py_run. by rewrite map_map.
  - intros x xv Hx. unfold gamma, gamma_model. rewrite Hmu0, ok_bind, Hmu, ok_bind.
    rewrite (np_ufunc3_scalars _ x muv (PyFloat F64.one) xv mu F64.one) by done.
    reflexivity.
Qed.

Lemma gamma_elementwise_witness :
  (forall xs, gamma (P:=Sample.provider) {[ "mu" := Boxed Sample.half ]}
                (NdArray xs) PyNone PyNone
              = Ok (NdArray (map (fun x => nan_to_num
                                             (Sample.gamma_pdf x Sample.half F64.one)) xs)))
  /\ (forall x xv, scalar_of x = Some xv ->
                   gamma (P:=Sample.provider) {[ "mu" := Boxed Sample.half ]}
                     x PyNone PyNone
                   = Ok (NpFloat (nan_to_num (Sample.gamma_pdf xv Sample.half F64.one)))).
Proof.
  apply (gamma_elementwise (P:=Sample.provider) {[ "mu" := Boxed Sample.half ]}
           (PyFloat Sample.half) Sample.half); reflexivity.
Defined.

(** [rayleigh] is element-wise with scale [s], for a scalar [s] taken
    from the mapping as it is. *)
Theorem rayleigh_elementwise `{P : Providers} params sv s :
  params !! "s" = Some sv ->
  scalar_of sv = Some s ->
  (forall xs, rayleigh params (NdArray xs) PyNone PyNone
              = Ok (NdArray (map (fun x => nan_to_num (stats_rayleigh_pdf x s)) xs)))
  /\ (forall x xv, scalar_of x = Some xv ->
                   rayleigh params x PyNone PyNone
                   = Ok (NpFloat (nan_to_num (stats_rayleigh_pdf xv s)))).
Proof.
  intros Hs Hsc. split.
  - intros xs. unfold rayleigh, rayleigh_model, getitem. rewrite Hs, ok_bind.
    rewrite (np_ufunc2_array_scalar _ _ sv s) by done.
    py_run. by rewrite map_map.
  - intros x xv Hx. unfold rayleigh, rayleigh_model, getitem. rewrite Hs, ok_bind.
    rewrite (np_ufunc2_scalars _ x sv xv s) by done.
    reflexivity.
Qed.

Lemma rayleigh_elementwise_witness :
  (forall xs, rayleigh (P:=Sample.provider) {[ "s" := NpFloat F64.two ]}
                (NdArray xs) PyNone PyNone
              = Ok (NdArray (map (fun x => nan_to_num (Sample.rayleigh_pdf x F64.two)) xs)))
  /\ (forall x xv, scalar_of x = Some xv ->
                   rayleigh (P:=Sample.provider) {[ "s" := NpFloat F64.two ]}
                     x PyNone PyNone
                   = Ok (NpFloat (nan_to_num (Sample.rayleigh_pdf xv F64.two)))).
Proof.
  apply (rayleigh_elementwise (P:=Sample.provider) {[ "s" := NpFloat F64.two ]}
           (NpFloat F64.two) F64.two); reflexivity.
Defined.

(** ** Signs and finiteness of the densities *)

Section Signs.
Context `{P : Providers}.

Lemma np_build_values_forall (Q : float -> Prop) s (g : nat -> float) :
  (forall i, Q (g i)) -> Forall Q (values (np_build s g)).
Proof.
  intros Hg. destruct s as [n|]; cbn.
  - apply Forall_forall. intros v Hv%list_elem_of_In%in_map_iff.
    destruct Hv as (i & <- & _). apply Hg.
  - by repeat constructor.
Qed.

Lemma np_ufunc2_values_forall (Q : float -> Prop) f u v r :
  (forall a b, Q (f a b)) -> np_ufunc2 f u v = Ok r -> Forall Q (values r).
Proof.
  intros Hf H. unfold np_ufunc2 in H.
  apply bind_inv in H as ([s1 g1] & _ & H).
  apply bind_inv in H as ([s2 g2] & _ & H).
  apply bind_inv in H as (s & _ & H).
  injection H as <-. by apply np_build_values_forall.
Qed.

Lemma np_ufunc3_values_forall (Q : float -> Prop) f u v w r :
  (forall a b c, Q (f a b c)) -> np_ufunc3 f u v w = Ok r -> Forall Q (values r).
Proof.
  intros Hf H. unfold np_ufunc3 in H.
  apply bind_inv in H as ([s1 g1] & _ & H).
  apply bind_inv in H as ([s2 g2] & _ & H).
  apply bind_inv in H as ([s3 g3] & _ & H).
  apply bind_inv in H as (s & _ & H).
  apply bind_inv in H as (s' & _ & H).
  injection H as <-. by apply np_build_values_forall.
Qed.

Lemma nan_to_num_values raw out :
  np_nan_to_num raw = Ok out -> values out = map nan_to_num (values raw).
Proof.
  intros H. pose proof (np_ufunc1_numeric _ _ _ H) as Hnum.
  destruct raw; try done; unfold np_nan_to_num in H.
  - rewrite np_ufunc1_py in H. by injection H as <-.
  - rewrite np_ufunc1_np in H. by injection H as <-.
  - rewrite np_ufunc1_array in H. by injection H as <-.
Qed.

Lemma k_density_sign_plus s mu g x :
  power_kv_not_negative ->
  sign_plus s = true -> sign_plus mu = true -> sign_plus g = true ->
  sign_plus x = true ->
  sign_plus (k_density s mu g x) = true.
Proof.
  intros [Hpow Hkv] Hs Hmu Hg Hx.
  assert (sign_plus (k_b s mu) = true) as Hb.
  { unfold k_b. apply div_sign_plus; [|done].
    apply sqrt_sign_plus, mul_sign_plus; done. }
  unfold k_density, k_closed_form.
  apply mul_sign_plus.
  - apply div_sign_plus; [|done].
    apply mul_sign_plus; [|by apply Hpow].
    apply mul_sign_plus; [done|].
    apply Hpow, div_sign_plus; done.
  - apply Hkv, mul_sign_plus; done.
Qed.

End Signs.

(** The compound integrand multiplies two values that went through
    [np.nan_to_num]: with float arguments and [mu] other than 0.0 it
    returns a number at every [w], and that number is never NaN. *)
Theorem compound_integrand_never_nan `{P : Providers} x a s mu w :
  F64.is_zero mu = false ->
  exists v,
    integrand (PyFloat w) (NpFloat x) (PyFloat a) (PyFloat s) (PyFloat mu) "compound"
    = Ok (NpFloat v)
    /\ F64.is_nan v = false.
Proof.
  intros Hmu. rewrite integrand_refines.
  change (integrand_spec "compound" x a s mu w) with (compound_integrand x a s mu w).
  rewrite compound_integrand_value by done. cbv zeta.
  eexists. split; [reflexivity|].
  apply mul_finite_not_nan; apply nan_to_num_finite.
Qed.

Lemma compound_integrand_never_nan_witness :
  exists v,
    integrand (P:=Sample.provider) (PyFloat F64.one) (NpFloat F64.zero)
      (PyFloat F64.zero) (PyFloat F64.one) (PyFloat F64.two) "compound"
    = Ok (NpFloat v)
    /\ F64.is_nan v = false.
Proof.
  apply (compound_integrand_never_nan (P:=Sample.provider)
           F64.zero F64.zero F64.one F64.two F64.one).
  reflexivity.
Defined.

(** When the densities of scipy.stats are never negative, every value
    [gamma], [rayleigh] and [rice] return as a density is finite and
    non-negative, for every parameter mapping and input on which they
    return. *)
Theorem stats_densities_finite_nonnegative `{P : Providers} ev params x eps out :
  pdfs_not_negative ->
  ev = Gamma \/ ev = Rayleigh \/ ev = Rice ->
  evaluate ev params x PyNone eps = Ok out ->
  Forall (fun v => F64.is_finite v = true /\ F64.nonneg v = true) (values out).
Proof.
  intros (Hgamma & Hrayleigh & Hrice) Hev Hout.
  assert (exists raw, Forall (fun v => not_negative v = true) (values raw)
                      /\ np_nan_to_num raw = Ok out) as (raw & Hraw & Hnum).
  { destruct Hev as [-> | [-> | ->]]; cbn [evaluate] in Hout.
    - unfold gamma in Hout. apply bind_inv in Hout as (raw & Hraw & Hout).
      apply bind_inv in Hout as (m & Hm & Hout). cbn [output] in Hout.
      injection Hout as ->. exists raw. split; [|done].
      unfold gamma_model in Hraw. do 2 apply bind_inv in Hraw as (? & _ & Hraw).
      exact (np_ufunc3_values_forall (fun v => not_negative v = true)
               _ _ _ _ _ Hgamma Hraw).
    - unfold rayleigh in Hout. apply bind_inv in Hout as (raw & Hraw & Hout).
      apply bind_inv in Hout as (m & Hm & Hout). cbn [output] in Hout.
      injection Hout as ->. exists raw. split; [|done].
      unfold rayleigh_model in Hraw. apply bind_inv in Hraw as (? & _ & Hraw).
      exact (np_ufunc2_values_forall (fun v => not_negative v = true)
               _ _ _ _ Hrayleigh Hraw).
    - unfold rice in Hout. apply bind_inv in Hout as (raw & Hraw & Hout).
      apply bind_inv in Hout as (m & Hm & Hout). cbn [output] in Hout.
      injection Hout as ->. exists raw. split; [|done].
      unfold rice_model in Hraw. do 3 apply bind_inv in Hraw as (? & _ & Hraw).
      exact (np_ufunc3_values_forall (fun v => not_negative v = true)
               _ _ _ _ _ Hrice Hraw). }
  rewrite (nan_to_num_values raw out Hnum).
  apply Forall_map. eapply Forall_impl; [exact Hraw|].
  intros v Hv. by apply nan_to_num_not_negative.
Qed.

Lemma sample_frame_not_negative valid body x scale :
  (forall r, sign_plus (body r) = true) ->
  not_negative (Sample.pdf_frame valid body x scale) = true.
Proof.
  intros Hbody. unfold Sample.pdf_frame.
  destruct (negb (valid && F64.pos scale) || F64.is_nan x) eqn:E; [done|].
  destruct (F64.nonneg _); [|done].
  apply sign_plus_not_negative, div_sign_plus; [done|].
  apply pos_sign_plus.
  apply orb_false_elim in E as [E _]. apply negb_false_iff in E.
  by apply andb_true_iff in E as [_ E].
Qed.

Lemma sample_pdfs_not_negative : pdfs_not_negative (P:=Sample.provider).
Proof.
  split_and!; intros; apply sample_frame_not_negative; intros r.
  - destruct (F64.is_zero r); [|done]. by destruct (SFcompare _ _) as [[]|].
  - by destruct (F64.is_zero r).
  - by destruct (F64.is_zero r && F64.is_finite b).
Qed.

Lemma stats_densities_finite_nonnegative_witness :
  Forall (fun v => F64.is_finite v = true /\ F64.nonneg v = true)
         (values (NdArray [F64.max_float; F64.zero])).
Proof.
  apply (stats_densities_finite_nonnegative (P:=Sample.provider) Gamma
           {[ "mu" := PyFloat Sample.half ]} (NdArray [F64.zero; F64.one]) PyNone
           (NdArray [F64.max_float; F64.zero])).
  - exact sample_pdfs_not_negative.
  - by left.
  - vm_compute. reflexivity.
Defined.

(** With valid parameters ([s > 0], [mu > 0]), a gamma function value
    that is not negative, and powers and [K_v] that are not negative on
    arguments that are not negative: on an array of points that are not
    negative, [k] returns one finite, non-negative density per point. *)
Theorem k_density_finite_nonnegative `{P : Providers} params s mu g xs :
  power_kv_not_negative ->
  params !! "s" = Some (PyFloat s) ->
  params !! "mu" = Some (PyFloat mu) ->
  F64.pos s = true ->
  F64.pos mu = true ->
  math_gamma mu = Ok g ->
  sign_plus g = true ->
  Forall (fun x => sign_plus x = true) xs ->
  exists out,
    k params (NdArray xs) PyNone PyNone = Ok (NdArray out)
    /\ length out = length xs
    /\ Forall (fun v => F64.is_finite v = true /\ F64.nonneg v = true) out.
Proof.
  intros Hlaw Hs Hmu Hspos Hmupos Hg Hgpos Hxs.
  eexists. split_and!.
  - unfold k. rewrite (k_model_array params s mu g xs) by done.
    py_run. reflexivity.
  - by rewrite !length_map.
  - apply Forall_map, Forall_map. eapply Forall_impl; [exact Hxs|].
    intros x Hx. apply nan_to_num_not_negative, sign_plus_not_negative.
    apply k_density_sign_plus; auto using pos_sign_plus.
Qed.

Lemma sample_power_kv_not_negative : power_kv_not_negative (P:=Sample.provider).
Proof.
  split.
  - intros b e Hb. cbn [np_power Sample.provider]. unfold Sample.np_pow.
    destruct (SFeqb e F64.one); [done|].
    destruct (SFeqb e F64.two); [by apply mul_sign_plus|].
    destruct (SFeqb e (F64.opp F64.two)); [|done].
    apply div_sign_plus; [done|by apply mul_sign_plus].
  - intros v z _. cbn [special_kv Sample.provider]. unfold Sample.kv.
    destruct (F64.is_zero z); [done|].
    by destruct (F64.is_zero v && SFeqb z Sample.kv_point).
Qed.

Lemma k_density_finite_nonnegative_witness :
  exists out,
    k (P:=Sample.provider) k_tiny_scale (NdArray [F64.zero; F64.ldexp 1 (-800)])
      PyNone PyNone = Ok (NdArray out)
    /\ length out = length [F64.zero; F64.ldexp 1 (-800)]
    /\ Forall (fun v => F64.is_finite v = true /\ F64.nonneg v = true) out.
Proof.
  apply (k_density_finite_nonnegative (P:=Sample.provider) k_tiny_scale
           (F64.ldexp 1 (-600)) F64.one F64.one [F64.zero; F64.ldexp 1 (-800)]).
  - exact sample_power_kv_not_negative.
  - reflexivity.
  - reflexivity.
  - reflexivity.
  - reflexivity.
  - reflexivity.
  - reflexivity.
  - repeat constructor.
Defined.

(** ** Points and weights that are not finite *)

Lemma div_zero_nonfinite v z : F64.is_zero z = true -> F64.is_finite (F64.div v z) = false.
Proof. by destruct z as [sz| | |], v as [sv|sv| |sv mv ev]. Qed.

(** At a point that is NaN or infinite the analytic integrand is never
    a finite number: whenever it returns, it returns NaN or an
    infinity, at every [w] and for all parameters. *)
Theorem analytic_integrand_at_nonfinite_point `{P : Providers} x a s mu w v :
  F64.is_finite x = false ->
  integrand (PyFloat w) (NpFloat x) (PyFloat a) (PyFloat s) (PyFloat mu) "analytic"
  = Ok v ->
  exists y, v = NpFloat y /\ F64.is_finite y = false.
Proof.
  intros Hx. rewrite integrand_refines.
  change (integrand_spec "analytic" x a s mu w) with (analytic_integrand x a s mu w).
  unfold analytic_integrand. intros H.
  apply bind_inv in H as (w2 & _ & H). apply bind_inv in H as (s2 & _ & H).
  destruct (F64.is_zero _); [done|].
  apply bind_inv in H as (p & _ & H). injection H as <-.
  eexists; split; [done|].
  by do 4 apply mul_nonfinite.
Qed.

Lemma analytic_integrand_at_nonfinite_point_witness :
  exists y, NpFloat F64.nan = NpFloat y /\ F64.is_finite y = false.
Proof.
  apply (analytic_integrand_at_nonfinite_point (P:=Sample.provider)
           F64.nan F64.zero F64.one F64.two F64.one (NpFloat F64.nan)).
  - reflexivity.
  - vm_compute. reflexivity.
Defined.

(** A zero in [eps] is not guarded: the weighted residual is infinite or
    NaN at that index, for each of the five evaluators. *)
Theorem zero_eps_gives_nonfinite `{P : Providers} ev params x m d e i ei :
  evaluate ev params x PyNone PyNone = Ok (NdArray m) ->
  length d = length m ->
  length e = length m ->
  e !! i = Some ei ->
  F64.is_zero ei = true ->
  exists out y,
    evaluate ev params x (NdArray d) (NdArray e) = Ok (NdArray out)
    /\ out !! i = Some y
    /\ F64.is_finite y = false.
Proof.
  intros Hm Hd He Hi Hzero.
  assert (exists mi, m !! i = Some mi) as [mi Hmi].
  { apply lookup_lt_is_Some. rewrite <- He. by eapply lookup_lt_Some. }
  assert (exists di, d !! i = Some di) as [di Hdi].
  { apply lookup_lt_is_Some. rewrite Hd, <- He. by eapply lookup_lt_Some. }
  do 2 eexists.
  rewrite (evaluate_output ev params x (NdArray d) (NdArray e)), Hm, ok_bind.
  rewrite output_weighted by done.
  split_and!; [done| |].
  - rewrite !lookup_zip_with, Hmi, Hdi, Hi. reflexivity.
  - by apply div_zero_nonfinite.
Qed.

Lemma zero_eps_gives_nonfinite_witness :
  exists out y,
    evaluate (P:=Sample.provider) Rayleigh {[ "s" := PyFloat F64.one ]}
      (NdArray [F64.zero]) (NdArray [F64.one]) (NdArray [F64.zero])
    = Ok (NdArray out)
    /\ out !! 0 = Some y
    /\ F64.is_finite y = false.
Proof.
  apply (zero_eps_gives_nonfinite (P:=Sample.provider) Rayleigh
           {[ "s" := PyFloat F64.one ]} (NdArray [F64.zero])
           [F64.zero] [F64.one] [F64.zero] 0 F64.zero).
  - vm_compute. reflexivity.
  - reflexivity.
  - reflexivity.
  - reflexivity.
  - reflexivity.
Defined.
